(** * A shallow embedding of the document question-answering front end

    The Python sources embedded here are

    - [utils/document_processor.py]  (format dispatch, validation, chunker)
    - [utils/session_manager.py]     (the session record and its updates)
    - [services/kendra_service.py]   (the gateway to the search backend)
    - [pages/home.py]                (batch upload and document management)
    - [config/config.py]             (configuration constants)

    Python [int] is [Z]; [str] is [string] (one [ascii] per character);
    a [dict] with string keys is a [gmap string _] or, where its keys are
    fixed, a record; a raised exception is a constructor of [exception].
    Code that can raise, loop forever, touch the session or draw on the
    page runs in the monad [M] below. *)

From Stdlib Require Import ZArith String Ascii DecimalString.
From stdpp Require Import gmap strings list.

Local Open Scope string_scope.
Local Open Scope Z_scope.
Local Open Scope list_scope.

(** * Python primitives *)

Module Py.

(** Exceptions deriving from [Exception].  [LibraryError] stands for
    whatever a third-party library raises (its class name and message). *)
Inductive exception : Type :=
| Exception (msg : string)
| ValueError (msg : string)
| IndexError (msg : string)
| KeyError (key : string)
| LibraryError (cls msg : string).

(** [str(e)] *)
Definition str_exc (e : exception) : string :=
  match e with
  | Exception m | ValueError m | IndexError m | LibraryError _ m => m
  | KeyError key => "'" +:+ key +:+ "'"
  end.

(** What can unwind the stack: an [Exception], or the script-control
    signal of [st.rerun()], which derives from [BaseException] and is
    therefore not caught by [except Exception]. *)
Inductive signal : Type :=
| Exc (e : exception)
| RerunException.

(** The result of calling into a library: a value or an exception. *)
Inductive result (A : Type) : Type :=
| Success (a : A)
| Failure (e : exception).
Arguments Success {A} a.
Arguments Failure {A} e.

(** [str(n)] for an integer *)
Definition str_int (n : Z) : string := NilZero.string_of_int (Z.to_int n).

(** [len(s)] *)
Definition len (s : string) : Z := Z.of_nat (String.length s).

Fixpoint str_take (n : nat) (s : string) : string :=
  match n, s with
  | S n', String c s' => String c (str_take n' s')
  | _, _ => EmptyString
  end.

Fixpoint str_drop (n : nat) (s : string) : string :=
  match n, s with
  | S n', String _ s' => str_drop n' s'
  | _, _ => s
  end.

(** Normalisation of one bound of a slice with step 1: a negative index
    counts from the end, and the result is clamped to [0, len]. *)
Definition slice_index (length i : Z) : Z :=
  if i <? 0 then Z.max (i + length) 0 else Z.min i length.

(** [s[start:stop]] *)
Definition slice (s : string) (start stop : Z) : string :=
  let lo := slice_index (len s) start in
  let hi := slice_index (len s) stop in
  str_take (Z.to_nat (hi - lo)) (str_drop (Z.to_nat lo) s).

(** [s[start:]] and [s[:stop]] *)
Definition slice_from (s : string) (start : Z) : string := slice s start (len s).
Definition slice_to (s : string) (stop : Z) : string := slice s 0 stop.

(** [c.lower()] on the ASCII range; every other character is kept.
    (The only non-ASCII code point whose lower case is an ASCII letter is
    the Kelvin sign, which maps to k.) *)
Definition lower_ascii (c : ascii) : ascii :=
  let n := nat_of_ascii c in
  if ((65 <=? n) && (n <=? 90))%nat then ascii_of_nat (n + 32) else c.

(** [s.lower()] *)
Fixpoint lower (s : string) : string :=
  match s with
  | EmptyString => EmptyString
  | String c s' => String (lower_ascii c) (lower s')
  end.

(** [s.split(sep)] for a one-character separator: never empty. *)
Fixpoint split (sep : ascii) (s : string) : list string :=
  match s with
  | EmptyString => [EmptyString]
  | String c s' =>
      if Ascii.eqb c sep then EmptyString :: split sep s'
      else match split sep s' with
           | piece :: rest => String c piece :: rest
           | [] => [String c EmptyString]
           end
  end.

(** [sep.join(l)] *)
Fixpoint join (sep : string) (l : list string) : string :=
  match l with
  | [] => EmptyString
  | [x] => x
  | x :: rest => x +:+ sep +:+ join sep rest
  end.

(** Characters removed by [strip()] (ASCII white space). *)
Definition is_space (c : ascii) : bool :=
  let n := nat_of_ascii c in
  ((n =? 32) || ((9 <=? n) && (n <=? 13)) || ((28 <=? n) && (n <=? 31)))%nat.

(** Truth value of [s.strip()]: some character is not white space. *)
Fixpoint strip_nonempty (s : string) : bool :=
  match s with
  | EmptyString => false
  | String c s' => negb (is_space c) || strip_nonempty s'
  end.

(** [l.pop(i)] for [i >= 0]: the list without position [i], or
    [IndexError] when [i] is out of range. *)
Definition pop {A} (l : list A) (i : nat) : result (A * list A) :=
  match l !! i with
  | Some x => Success (x, delete i l)
  | None => Failure (IndexError "pop index out of range")
  end.

(** [-(-a // b)], the ceiling of [a / b] for [b > 0] *)
Definition ceil_div (a b : Z) : Z := - ((- a) / b).

End Py.

Export Py.

(** * Data carried between the modules *)

Module Data.

(** Values kept in metadata dictionaries and analytics lists. *)
Inductive py_val : Type :=
| PyNone
| PyInt (n : Z)
| PyStr (s : string)
| PyStrList (l : list string).

(** Truth value of a Python value, as [if v:] tests it. *)
Definition truthy (v : py_val) : bool :=
  match v with
  | PyNone => false
  | PyInt n => negb (n =? 0)
  | PyStr s => negb (String.eqb s "")
  | PyStrList l => negb (bool_decide (l = []))
  end.

(** Streamlit's [UploadedFile]: [name], [size] in bytes and the raw
    content the format libraries read. *)
Record uploaded_file : Type := UploadedFile {
  f_name : string;
  f_size : Z;
  f_data : string
}.

(** One normalised item of a query ([result_item] in
    [KendraService.query]). *)
Record search_result : Type := SearchResult {
  sr_id : string;
  sr_type : string;
  sr_score : string;
  sr_document_title : string;
  sr_document_excerpt : string;
  sr_document_uri : string;
  sr_attributes : list (string * string)
}.

(** The [doc_info] dictionary built by [process_files]. *)
Record doc_info : Type := DocInfo {
  doc_filename : string;
  doc_size : Z;
  doc_type : py_val;
  doc_metadata : gmap string py_val;
  doc_content : string;
  doc_chunks : Z;
  doc_timestamp : Z
}.

(** The [message] dictionary built by [add_to_chat_history]. *)
Record message : Type := Message {
  msg_role : string;
  msg_content : string;
  msg_timestamp : string;
  msg_sources : list search_result;
  msg_confidence : py_val
}.

End Data.

Export Data.

(** * config/config.py *)

Module Config.

(** The settings read from the environment when the class is loaded. *)
Record config : Type := Cfg {
  AWS_ACCESS_KEY_ID : string;
  AWS_SECRET_ACCESS_KEY : string;
  AWS_DEFAULT_REGION : string;
  KENDRA_INDEX_ID : string;
  MAX_FILE_SIZE_MB : Z
}.

Definition SUPPORTED_FILE_TYPES : list string := ["pdf"; "txt"; "docx"; "csv"; "json"].

Definition KENDRA_MAX_RESULTS : Z := 5.

(** [Config.validate()] *)
Definition validate (cfg : config) : bool * string :=
  let required_fields :=
    [("AWS_ACCESS_KEY_ID", AWS_ACCESS_KEY_ID cfg);
     ("AWS_SECRET_ACCESS_KEY", AWS_SECRET_ACCESS_KEY cfg);
     ("KENDRA_INDEX_ID", KENDRA_INDEX_ID cfg)] in
  let missing_fields :=
    map fst (List.filter (fun fv : string * string => String.eqb (snd fv) "") required_fields) in
  if negb (bool_decide (missing_fields = [])) then
    (false, "Missing required configuration: " +:+ join ", " missing_fields)
  else (true, "Configuration valid").

(** [Config.get_aws_credentials()] *)
Record credentials : Type := Credentials {
  aws_access_key_id : string;
  aws_secret_access_key : string;
  region_name : string
}.

Definition get_aws_credentials (cfg : config) : credentials :=
  Credentials (AWS_ACCESS_KEY_ID cfg) (AWS_SECRET_ACCESS_KEY cfg) (AWS_DEFAULT_REGION cfg).

End Config.

(** * utils/session_manager.py *)

Module SessionManager.

(** [st.session_state.analytics_data] *)
Record analytics : Type := Analytics {
  queries : list (string * string);
  confidence_scores : list py_val;
  response_times : list py_val;
  sources_used : list search_result;
  user_feedback : list (string * py_val * string)
}.

(** A cached backend client is only ever stored and read back. *)
Inductive client_handle : Type := ClientHandle (id : nat).

(** [st.session_state] once initialised: one field per key, and the
    [show_preview_<idx>] keys as a map from [idx]. *)
Record session_state : Type := SessionState {
  config_validated : bool;
  uploaded_documents : list doc_info;
  doc_count : Z;
  chat_history : list message;
  current_conversation : list message;
  query_count : Z;
  query_history : list string;
  analytics_data : analytics;
  kendra_client : option client_handle;
  bedrock_client : option client_handle;
  show_sources : bool;
  streaming_enabled : bool;
  show_preview : gmap nat bool
}.

(** The state a first run starts from. *)
Definition fresh_session : session_state := {|
  config_validated := false;
  uploaded_documents := [];
  doc_count := 0;
  chat_history := [];
  current_conversation := [];
  query_count := 0;
  query_history := [];
  analytics_data := Analytics [] [] [] [] [];
  kendra_client := None;
  bedrock_client := None;
  show_sources := true;
  streaming_enabled := true;
  show_preview := ∅
|}.

(** [initialize_session_state()]: every key is set only when it is
    absent.  A session either has no key yet ([None]) or went through
    this function on an earlier run and has them all. *)
Definition initialize_session_state (s : option session_state) : session_state :=
  match s with
  | None => fresh_session
  | Some s => s
  end.

(** Assignments to single keys. *)
Definition set_documents (docs : list doc_info) (s : session_state) : session_state := {|
  config_validated := config_validated s;
  uploaded_documents := docs;
  doc_count := doc_count s;
  chat_history := chat_history s;
  current_conversation := current_conversation s;
  query_count := query_count s;
  query_history := query_history s;
  analytics_data := analytics_data s;
  kendra_client := kendra_client s;
  bedrock_client := bedrock_client s;
  show_sources := show_sources s;
  streaming_enabled := streaming_enabled s;
  show_preview := show_preview s
|}.

Definition set_doc_count (n : Z) (s : session_state) : session_state := {|
  config_validated := config_validated s;
  uploaded_documents := uploaded_documents s;
  doc_count := n;
  chat_history := chat_history s;
  current_conversation := current_conversation s;
  query_count := query_count s;
  query_history := query_history s;
  analytics_data := analytics_data s;
  kendra_client := kendra_client s;
  bedrock_client := bedrock_client s;
  show_sources := show_sources s;
  streaming_enabled := streaming_enabled s;
  show_preview := show_preview s
|}.

Definition set_chat_history (h : list message) (s : session_state) : session_state := {|
  config_validated := config_validated s;
  uploaded_documents := uploaded_documents s;
  doc_count := doc_count s;
  chat_history := h;
  current_conversation := current_conversation s;
  query_count := query_count s;
  query_history := query_history s;
  analytics_data := analytics_data s;
  kendra_client := kendra_client s;
  bedrock_client := bedrock_client s;
  show_sources := show_sources s;
  streaming_enabled := streaming_enabled s;
  show_preview := show_preview s
|}.

Definition set_current_conversation (c : list message) (s : session_state) : session_state := {|
  config_validated := config_validated s;
  uploaded_documents := uploaded_documents s;
  doc_count := doc_count s;
  chat_history := chat_history s;
  current_conversation := c;
  query_count := query_count s;
  query_history := query_history s;
  analytics_data := analytics_data s;
  kendra_client := kendra_client s;
  bedrock_client := bedrock_client s;
  show_sources := show_sources s;
  streaming_enabled := streaming_enabled s;
  show_preview := show_preview s
|}.

Definition set_query_count (n : Z) (s : session_state) : session_state := {|
  config_validated := config_validated s;
  uploaded_documents := uploaded_documents s;
  doc_count := doc_count s;
  chat_history := chat_history s;
  current_conversation := current_conversation s;
  query_count := n;
  query_history := query_history s;
  analytics_data := analytics_data s;
  kendra_client := kendra_client s;
  bedrock_client := bedrock_client s;
  show_sources := show_sources s;
  streaming_enabled := streaming_enabled s;
  show_preview := show_preview s
|}.

Definition set_analytics_data (a : analytics) (s : session_state) : session_state := {|
  config_validated := config_validated s;
  uploaded_documents := uploaded_documents s;
  doc_count := doc_count s;
  chat_history := chat_history s;
  current_conversation := current_conversation s;
  query_count := query_count s;
  query_history := query_history s;
  analytics_data := a;
  kendra_client := kendra_client s;
  bedrock_client := bedrock_client s;
  show_sources := show_sources s;
  streaming_enabled := streaming_enabled s;
  show_preview := show_preview s
|}.

Definition set_show_preview (idx : nat) (b : bool) (s : session_state) : session_state := {|
  config_validated := config_validated s;
  uploaded_documents := uploaded_documents s;
  doc_count := doc_count s;
  chat_history := chat_history s;
  current_conversation := current_conversation s;
  query_count := query_count s;
  query_history := query_history s;
  analytics_data := analytics_data s;
  kendra_client := kendra_client s;
  bedrock_client := bedrock_client s;
  show_sources := show_sources s;
  streaming_enabled := streaming_enabled s;
  show_preview := <[idx := b]> (show_preview s)
|}.

(** [add_to_chat_history(role, content, sources, confidence)], with
    [now] the text of [datetime.now().isoformat()].  The one [message]
    is appended to both lists; [sources or []] is the list itself. *)
Definition add_to_chat_history (now : string) (role content : string)
    (sources : option (list search_result)) (confidence : py_val)
    (s : session_state) : session_state :=
  let message := Message role content now (default [] sources) confidence in
  let s := set_chat_history (chat_history s ++ [message]) s in
  set_current_conversation (current_conversation s ++ [message]) s.

(** [clear_chat_history()]: [current_conversation] is bound to a new
    empty list. *)
Definition clear_chat_history (s : session_state) : session_state :=
  set_current_conversation [] s.

(** [increment_query_count()] *)
Definition increment_query_count (s : session_state) : session_state :=
  set_query_count (query_count s + 1) s.

(** [add_uploaded_document(doc_info)] *)
Definition add_uploaded_document (doc : doc_info) (s : session_state) : session_state :=
  let s := set_documents (uploaded_documents s ++ [doc]) s in
  set_doc_count (Z.of_nat (length (uploaded_documents s))) s.

(** [record_analytics(query, confidence, response_time, sources,
    feedback)]; [now] and [now_feedback] are the texts of the two
    [datetime.now().isoformat()] readings, the second taken only for a
    feedback entry. *)
Definition record_analytics (now now_feedback : string) (query : string)
    (confidence response_time : py_val) (sources : list search_result)
    (feedback : py_val) (s : session_state) : session_state :=
  let a := analytics_data s in
  let a := Analytics (queries a ++ [(query, now)])
                     (confidence_scores a ++ [confidence])
                     (response_times a ++ [response_time])
                     (sources_used a ++ sources)
                     (if truthy feedback
                      then user_feedback a ++ [(query, feedback, now_feedback)]
                      else user_feedback a) in
  set_analytics_data a s.

End SessionManager.

(** * Effects: exceptions, non-termination, the session and the page *)

Module Effects.
Import SessionManager.

(** Calls made on the backend client, with their arguments. *)
Inductive backend_call : Type :=
| CallQuery (IndexId QueryText : string) (PageSize : Z)
| CallBatchPutDocument (IndexId : string) (count : nat)
| CallBatchDeleteDocument (IndexId : string) (DocumentIdList : list string)
| CallGetQuerySuggestions (IndexId QueryText : string) (MaxSuggestionsCount : Z)
| CallDescribeIndex (Id : string).

(** What a run leaves on the page and on the wire, in order. *)
Inductive event : Type :=
| StProgress (numerator denominator : Z)
| StStatus (text : string)
| StWarning (text : string)
| StError (text : string)
| StSuccess (text : string)
| StInfo (text : string)
| StBalloons
| Sleep (seconds : Z)
| HandlerCall (file_extension : string)
| Backend (c : backend_call).

Record world : Type := World {
  session : session_state;
  page : list event
}.

(** How a call ends. *)
Inductive outcome (A : Type) : Type :=
| Ok (a : A)
| Raise (s : signal)
| Diverge.
Arguments Ok {A} a.
Arguments Raise {A} s.
Arguments Diverge {A}.

Definition M (A : Type) : Type := world -> outcome A * world.

Definition ret {A} (a : A) : M A := fun w => (Ok a, w).

Definition bind {A B} (m : M A) (k : A -> M B) : M B :=
  fun w =>
    match m w with
    | (Ok a, w') => k a w'
    | (Raise s, w') => (Raise s, w')
    | (Diverge, w') => (Diverge, w')
    end.

(** [raise e] *)
Definition raise {A} (e : exception) : M A := fun w => (Raise (Exc e), w).

(** [st.rerun()] *)
Definition rerun {A} : M A := fun w => (Raise RerunException, w).

(** [try: m  except Exception as e: handler e] *)
Definition try_except {A} (m : M A) (handler : exception -> M A) : M A :=
  fun w =>
    match m w with
    | (Raise (Exc e), w') => handler e w'
    | r => r
    end.

(** A library call: its exception is raised here. *)
Definition call {A} (r : result A) : M A :=
  match r with
  | Success a => ret a
  | Failure e => raise e
  end.

(** A loop that may not end. *)
Definition terminating {A} (r : option A) : M A :=
  match r with
  | Some a => ret a
  | None => fun w => (Diverge, w)
  end.

Definition emit (e : event) : M unit :=
  fun w => (Ok tt, World (session w) (page w ++ [e])).

Definition get_session : M session_state := fun w => (Ok (session w), w).

Definition modify_session (f : session_state -> session_state) : M unit :=
  fun w => (Ok tt, World (f (session w)) (page w)).

(** [for x in l: acc = body acc x], the loop variables threaded through. *)
Fixpoint for_each {A S} (body : S -> A -> M S) (l : list A) (acc : S) : M S :=
  match l with
  | [] => ret acc
  | x :: l' => bind (body acc x) (for_each body l')
  end.

(** [enumerate(l, start)] *)
Fixpoint enumerate {A} (start : nat) (l : list A) : list (nat * A) :=
  match l with
  | [] => []
  | x :: l' => (start, x) :: enumerate (S start) l'
  end.

End Effects.

Export Effects.

Declare Scope py_scope.
Delimit Scope py_scope with py.
Notation "x <- c1 ;; c2" := (bind c1 (fun x => c2))
  (at level 100, c1 at next level, right associativity) : py_scope.
Notation "c1 ;; c2" := (bind c1 (fun _ => c2))
  (at level 100, right associativity) : py_scope.

(** * utils/document_processor.py *)

Module DocumentProcessor.

(** ** The chunker *)

Section Loop.
Variables (text : string) (chunk_size overlap : Z).

(** The variables the loop updates. *)
Record loop_state : Type := LoopState {
  chunks : list string;
  start : Z
}.

Definition text_length : Z := len text.

(** [chunks = []; start = 0] *)
Definition loop_init : loop_state := LoopState [] 0.

(** [start < text_length] *)
Definition loop_cond (st : loop_state) : bool := start st <? text_length.

(** [end = start + chunk_size; chunk = text[start:end];
    chunks.append(chunk); start = end - overlap] *)
Definition loop_body (st : loop_state) : loop_state :=
  let end_ := start st + chunk_size in
  let chunk := slice text (start st) end_ in
  LoopState (chunks st ++ [chunk]) (end_ - overlap).

(** The [while] loop, run for at most [fuel] iterations; [None] when
    the condition still holds after that many. *)
Fixpoint while (fuel : nat) (st : loop_state) : option loop_state :=
  if loop_cond st then
    match fuel with
    | O => None
    | S fuel' => while fuel' (loop_body st)
    end
  else Some st.
End Loop.

(** [chunk_text] run for at most [fuel] iterations of its loop. *)
Definition chunk_text_fuel (fuel : nat) (text : string) (chunk_size overlap : Z)
  : option (list string) :=
  chunks <$> while text chunk_size overlap fuel loop_init.

(** [DocumentProcessor.chunk_text(text, chunk_size, overlap)].  A run that
    returns makes at most [len(text)] iterations (lemma
    [chunk_text_fuel_adequate]), so [None] here means the loop never
    ends. *)
Definition chunk_text (text : string) (chunk_size overlap : Z) : option (list string) :=
  chunk_text_fuel (String.length text) text chunk_size overlap.

(** Default arguments [chunk_size = 1000, overlap = 200]. *)
Definition default_chunk_size : Z := 1000.
Definition default_overlap : Z := 200.

(** The closed form of the loop: [n] windows starting at [s], one every
    [chunk_size - overlap] characters. *)
Fixpoint windows (text : string) (chunk_size overlap : Z) (n : nat) (s : Z) : list string :=
  match n with
  | O => []
  | S n' => slice text s (s + chunk_size)
            :: windows text chunk_size overlap n' (s + chunk_size - overlap)
  end.

(** The number of iterations the loop has still to make from offset [s]. *)
Definition iterations_from (text : string) (chunk_size overlap : Z) (s : Z) : nat :=
  Z.to_nat (ceil_div (len text - s) (chunk_size - overlap)).

(** The number of windows that start inside the text. *)
Definition chunk_count (text : string) (chunk_size overlap : Z) : nat :=
  Z.to_nat (ceil_div (len text) (chunk_size - overlap)).

(** The last [k] and the first [k] characters of a string. *)
Definition last_chars (k : Z) (s : string) : string :=
  str_drop (String.length s - Z.to_nat k) s.
Definition first_chars (k : Z) (s : string) : string :=
  str_take (Z.to_nat k) s.

(** ** The format libraries *)

(** What [docx.Document] exposes: the text of each paragraph, and each
    table as its rows of cell texts. *)
Record docx_document : Type := Docx {
  paragraphs : list string;
  tables : list (list (list string))
}.

(** What is read of a pandas [DataFrame]: column names, [len(df)] and
    [df.to_string()]. *)
Record data_frame : Type := DataFrame {
  columns : list string;
  n_rows : Z;
  to_string : string
}.

(** The third-party parsers, each a function of the uploaded file.
    [PdfReader] gives the pages, each as the outcome of its
    [extract_text()]; [read_decode] is [file.read().decode('utf-8')];
    [json] is the type of parsed JSON documents and [json_dumps] is
    [json.dumps(_, indent=2)]. *)
Class FormatLibraries : Type := {
  json : Type;
  PdfReader : uploaded_file -> result (list (result string));
  read_decode : uploaded_file -> result string;
  Document : uploaded_file -> result docx_document;
  read_csv : uploaded_file -> result data_frame;
  json_load : uploaded_file -> result json;
  json_dumps : json -> string
}.

(** Sequencing of library calls. *)
Definition and_then {A B} (r : result A) (k : A -> result B) : result B :=
  match r with
  | Success a => k a
  | Failure e => Failure e
  end.

(** Results of a list of calls, up to the first failure. *)
Fixpoint collect {A} (l : list (result A)) : result (list A) :=
  match l with
  | [] => Success []
  | r :: l' => and_then r (fun a => and_then (collect l') (fun rest => Success (a :: rest)))
  end.

(** [except Exception as e: raise Exception(prefix + str(e))] *)
Definition reraise {A} (prefix : string) (r : result A) : result A :=
  match r with
  | Success a => Success a
  | Failure e => Failure (Exception (prefix +:+ str_exc e))
  end.

Definition nl : string := String "010"%char EmptyString.

(** [d[key]] where the dictionary is written out as its items;
    [None] when [key not in d]. *)
Fixpoint dict_get {V} (d : list (string * V)) (key : string) : option V :=
  match d with
  | [] => None
  | (k, v) :: d' => if String.eqb k key then Some v else dict_get d' key
  end.

(** [name.split('.')[-1].lower()]; [split] never gives an empty list. *)
Definition file_extension_of (name : string) : string :=
  lower (List.last (split "." name) "").

(** [metadata.update({'filename': ..., 'file_size': ..., 'file_type': ...})] *)
Definition add_common_metadata (uploaded_file : uploaded_file) (file_extension : string)
    (metadata : gmap string py_val) : gmap string py_val :=
  <["file_type" := PyStr file_extension]>
    (<["file_size" := PyInt (f_size uploaded_file)]>
       (<["filename" := PyStr (f_name uploaded_file)]> metadata)).

Section Handlers.
Context {libs : FormatLibraries}.

Definition process_pdf (file : uploaded_file) : result (string * gmap string py_val) :=
  reraise "Error processing PDF: "
    (and_then (PdfReader file) (fun pages =>
       let metadata : gmap string py_val :=
         <["format" := PyStr "PDF"]> (<["pages" := PyInt (Z.of_nat (length pages))]> ∅) in
       and_then
         (collect (map (fun numbered : nat * result string =>
                          let '(page_num, page) := numbered in
                          and_then page (fun text =>
                            Success ("[Page " +:+ str_int (Z.of_nat page_num) +:+ "]"
                                     +:+ nl +:+ text)))
                       (enumerate 1 pages)))
         (fun text_content =>
            let full_text := join (nl +:+ nl) text_content in
            Success (full_text, metadata)))).

Definition process_txt (file : uploaded_file) : result (string * gmap string py_val) :=
  reraise "Error processing TXT: "
    (and_then (read_decode file) (fun text_content =>
       let metadata : gmap string py_val :=
         <["size" := PyInt (len text_content)]> (<["format" := PyStr "TXT"]> ∅) in
       Success (text_content, metadata))).

Definition process_docx (file : uploaded_file) : result (string * gmap string py_val) :=
  reraise "Error processing DOCX: "
    (and_then (Document file) (fun doc =>
       let text_content := List.filter strip_nonempty (paragraphs doc) in
       let text_content :=
         (text_content
            ++ concat (map (fun table : list (list string) => map (join " | ") table)
                           (tables doc)))%list in
       let full_text := join (nl +:+ nl) text_content in
       let metadata : gmap string py_val :=
         <["tables" := PyInt (Z.of_nat (length (tables doc)))]>
           (<["paragraphs" := PyInt (Z.of_nat (length (paragraphs doc)))]>
              (<["format" := PyStr "DOCX"]> ∅)) in
       Success (full_text, metadata))).

Definition process_csv (file : uploaded_file) : result (string * gmap string py_val) :=
  reraise "Error processing CSV: "
    (and_then (read_csv file) (fun df =>
       let text_content := "CSV Data Summary:" +:+ nl in
       let text_content := text_content +:+ "Columns: " +:+ join ", " (columns df) +:+ nl in
       let text_content := text_content +:+ "Rows: " +:+ str_int (n_rows df) +:+ nl +:+ nl in
       let text_content := text_content +:+ "Data:" +:+ nl in
       let text_content := text_content +:+ to_string df in
       let metadata : gmap string py_val :=
         <["column_names" := PyStrList (columns df)]>
           (<["columns" := PyInt (Z.of_nat (length (columns df)))]>
              (<["rows" := PyInt (n_rows df)]>
                 (<["format" := PyStr "CSV"]> ∅))) in
       Success (text_content, metadata))).

Definition process_json (file : uploaded_file) : result (string * gmap string py_val) :=
  reraise "Error processing JSON: "
    (and_then (json_load file) (fun json_data =>
       let text_content := json_dumps json_data in
       let metadata : gmap string py_val :=
         <["size" := PyInt (len text_content)]> (<["format" := PyStr "JSON"]> ∅) in
       Success (text_content, metadata))).

(** The [processors] dictionary of [process_file]. *)
Definition processors : list (string * (uploaded_file -> result (string * gmap string py_val))) :=
  [("pdf", process_pdf); ("txt", process_txt); ("docx", process_docx);
   ("csv", process_csv); ("json", process_json)].

(** [DocumentProcessor.process_file(uploaded_file)].  Entering a
    handler is recorded on the page as [HandlerCall]. *)
Definition process_file (uploaded_file : uploaded_file) : M (string * gmap string py_val) :=
  let file_extension := file_extension_of (f_name uploaded_file) in
  match dict_get processors file_extension with
  | None => raise (ValueError ("Unsupported file type: " +:+ file_extension))
  | Some processor =>
      (emit (HandlerCall file_extension) ;;
       processed <- call (processor uploaded_file) ;;
       let '(text_content, metadata) := processed in
       ret (text_content, add_common_metadata uploaded_file file_extension metadata))%py
  end.
End Handlers.

(** [DocumentProcessor.validate_file(uploaded_file, max_size_mb)] *)
Definition validate_file (uploaded_file : uploaded_file) (max_size_mb : Z) : bool * string :=
  let max_size_bytes := max_size_mb * 1024 * 1024 in
  if f_size uploaded_file >? max_size_bytes then
    (false, "File size exceeds " +:+ str_int max_size_mb +:+ "MB limit")
  else
    let file_extension := file_extension_of (f_name uploaded_file) in
    let supported_types := ["pdf"; "txt"; "docx"; "csv"; "json"] in
    if negb (bool_decide (file_extension ∈ supported_types)) then
      (false, "Unsupported file type. Supported: " +:+ join ", " supported_types)
    else (true, "").

End DocumentProcessor.

(** * services/kendra_service.py *)

Module KendraService.
Import Config.

(** ** What the backend returns: every key may be absent *)

Record text_field : Type := TextField { Text : option string }.

Record score_attributes : Type := ScoreAttributes_ { ScoreConfidence : option string }.

Record result_item : Type := ResultItem {
  Id : option string;
  Type_ : option string;
  ScoreAttributes : option score_attributes;
  DocumentTitle : option text_field;
  DocumentExcerpt : option text_field;
  DocumentURI : option string;
  DocumentAttributes : option (list (string * string))
}.

Record query_response : Type := QueryResponse {
  ResultItems : option (list result_item)
}.

Record suggestion_value : Type := SuggestionValue { ValueText : option text_field }.

Record suggestion : Type := Suggestion { Value : option suggestion_value }.

Record suggestions_response : Type := SuggestionsResponse {
  Suggestions : option (list suggestion)
}.

Record batch_put_response : Type := BatchPutResponse {
  FailedDocuments : option (list string)
}.

Record describe_index_response : Type := DescribeIndexResponse {
  Name : option string;
  Status : option string;
  Description : option string;
  CreatedAt : option string;
  UpdatedAt : option string
}.

(** A document as [batch_put_document] submits it. *)
Record kendra_document : Type := KendraDocument {
  kd_Id : string;
  kd_Title : string;
  kd_Blob : string;
  kd_ContentType : string;
  kd_Attributes : option (list (string * string))
}.

(** The boto3 client: what each operation answers to its arguments. *)
Record kendra_client : Type := KendraClient {
  client_query : string -> string -> Z -> result query_response;
  client_batch_put_document : string -> list kendra_document -> result batch_put_response;
  client_batch_delete_document : string -> list string -> result unit;
  client_get_query_suggestions : string -> string -> Z -> result suggestions_response;
  client_describe_index : string -> result describe_index_response
}.

(** ** What the service returns *)

Record query_results : Type := QueryResults {
  qr_query : string;
  qr_total_results : Z;
  qr_items : list search_result
}.

Record upload_results : Type := UploadResults {
  ur_success : bool;
  ur_failed_documents : list string
}.

Record index_info : Type := IndexInfo {
  ii_name : string;
  ii_status : string;
  ii_description : string;
  ii_created_at : string;
  ii_updated_at : string
}.

(** ** The service object *)

Record service : Type := Service {
  client : option kendra_client;
  index_id : string
}.

(** [KendraService()] *)
Definition init (cfg : config) : service := Service None (KENDRA_INDEX_ID cfg).

Definition not_initialized : exception :=
  Exception "Kendra client not initialized. Call initialize_client() first.".

(** [initialize_client(aws_credentials)]: the service afterwards and
    the returned pair.  [boto3_client] is [boto3.client('kendra', ...)]. *)
Definition initialize_client (boto3_client : credentials -> result kendra_client)
    (cfg : config) (self : service) (aws_credentials : option credentials)
  : service * (bool * string) :=
  let created :=
    match aws_credentials with
    | Some creds => boto3_client creds
    | None => boto3_client (Credentials (AWS_ACCESS_KEY_ID cfg)
                                        (AWS_SECRET_ACCESS_KEY cfg)
                                        (AWS_DEFAULT_REGION cfg))
    end in
  match created with
  | Success c => (Service (Some c) (index_id self), (true, "Kendra client initialized successfully"))
  | Failure e => (self, (false, "Failed to initialize Kendra client: " +:+ str_exc e))
  end.

(** The body of the loop of [query]: one [result_item] dictionary. *)
Definition normalize_item (item : result_item) : search_result := {|
  sr_id := default "" (Id item);
  sr_type := default "" (Type_ item);
  sr_score := default "UNKNOWN" (ScoreConfidence (default (ScoreAttributes_ None) (ScoreAttributes item)));
  sr_document_title := default "Untitled" (Text (default (TextField None) (DocumentTitle item)));
  sr_document_excerpt := default "" (Text (default (TextField None) (DocumentExcerpt item)));
  sr_document_uri := default "" (DocumentURI item);
  sr_attributes := default [] (DocumentAttributes item)
|}.

(** [for item in ...: results['items'].append(result_item)] *)
Definition append_items (items : list result_item) (acc : list search_result)
  : list search_result :=
  fold_left (fun (acc : list search_result) item => (acc ++ [normalize_item item])%list)
            items acc.

(** [query(query_text, max_results)] *)
Definition query (self : service) (query_text : string) (max_results : option Z)
  : M query_results :=
  match client self with
  | None => raise not_initialized
  | Some c =>
      let max_results := default KENDRA_MAX_RESULTS max_results in
      try_except
        (emit (Backend (CallQuery (index_id self) query_text max_results)) ;;
         response <- call (client_query c (index_id self) query_text max_results) ;;
         let results :=
           QueryResults query_text
                        (Z.of_nat (length (default [] (ResultItems response))))
                        [] in
         let items := append_items (default [] (ResultItems response)) (qr_items results) in
         ret (QueryResults (qr_query results) (qr_total_results results) items))%py
        (fun e => raise (Exception ("Kendra query failed: " +:+ str_exc e)))
  end.

(** [batch_put_document(documents)] *)
Definition batch_put_document (self : service) (documents : list kendra_document)
  : M upload_results :=
  match client self with
  | None => raise not_initialized
  | Some c =>
      try_except
        (emit (Backend (CallBatchPutDocument (index_id self) (length documents))) ;;
         response <- call (client_batch_put_document c (index_id self) documents) ;;
         ret (UploadResults true (default [] (FailedDocuments response))))%py
        (fun e => raise (Exception ("Batch document upload failed: " +:+ str_exc e)))
  end.

(** [delete_document(document_id)] *)
Definition delete_document (self : service) (document_id : string) : M bool :=
  match client self with
  | None => raise not_initialized
  | Some c =>
      try_except
        (emit (Backend (CallBatchDeleteDocument (index_id self) [document_id])) ;;
         call (client_batch_delete_document c (index_id self) [document_id]) ;;
         ret true)%py
        (fun e => raise (Exception ("Document deletion failed: " +:+ str_exc e)))
  end.

(** [item.get('Value', {}).get('Text', {}).get('Text', '')] *)
Definition suggestion_text (item : suggestion) : string :=
  default "" (Text (default (TextField None)
                      (ValueText (default (SuggestionValue None) (Value item))))).

(** [get_query_suggestions(query_text, max_suggestions)] *)
Definition get_query_suggestions (self : service) (query_text : string)
    (max_suggestions : Z) : M (list string) :=
  match client self with
  | None => ret []
  | Some c =>
      try_except
        (emit (Backend (CallGetQuerySuggestions (index_id self) query_text max_suggestions)) ;;
         response <- call (client_get_query_suggestions c (index_id self) query_text
                                                       max_suggestions) ;;
         let suggestions := map suggestion_text (default [] (Suggestions response)) in
         ret suggestions)%py
        (fun e =>
           emit (StWarning ("Failed to get suggestions: " +:+ str_exc e)) ;;
           ret [])%py
  end.

Definition default_max_suggestions : Z := 5.

(** [describe_index()] *)
Definition describe_index (self : service) : M index_info :=
  match client self with
  | None => raise not_initialized
  | Some c =>
      try_except
        (emit (Backend (CallDescribeIndex (index_id self))) ;;
         response <- call (client_describe_index c (index_id self)) ;;
         ret (IndexInfo (default "" (Name response))
                        (default "" (Status response))
                        (default "" (Description response))
                        (default "" (CreatedAt response))
                        (default "" (UpdatedAt response))))%py
        (fun e => raise (Exception ("Failed to describe index: " +:+ str_exc e)))
  end.

End KendraService.

(** * pages/home.py *)

Module Home.
Import Config SessionManager DocumentProcessor.

(** The emoji of the messages, as their UTF-8 bytes. *)
Definition cross_mark : string :=
  String "226"%char (String "157"%char (String "140"%char EmptyString)).
Definition check_mark : string :=
  String "226"%char (String "156"%char (String "133"%char EmptyString)).
Definition warning_sign : string :=
  String "226"%char (String "154"%char (String "160"%char
    (String "239"%char (String "184"%char (String "143"%char EmptyString))))).

(** The buttons of the page, by their label or key. *)
Inductive button : Type :=
| BtnProcessAll
| BtnDelete (idx : nat)
| BtnPreview (idx : nat)
| BtnClosePreview (idx : nat)
| BtnClearAll.

#[export] Instance button_eq_dec : EqDecision button.
Proof. solve_decision. Defined.

(** [st.button(...)]: true in the run that the click on it triggers.
    [clicked] is the button clicked, if any. *)
Definition st_button (clicked : option button) (b : button) : bool :=
  bool_decide (clicked = Some b).

(** What one file of the batch ends as. *)
Inductive file_outcome : Type :=
| Rejected (error_msg : string)
| Failed (e : exception)
| Processed (doc : doc_info).

(** The message [process_one] shows for a file and its outcome. *)
Definition report_of (uploaded_file : uploaded_file) (o : file_outcome) : event :=
  match o with
  | Rejected error_msg =>
      StWarning (cross_mark +:+ " " +:+ f_name uploaded_file +:+ ": " +:+ error_msg)
  | Failed e =>
      StError (cross_mark +:+ " Error processing " +:+ f_name uploaded_file
               +:+ ": " +:+ str_exc e)
  | Processed _ =>
      StSuccess (check_mark +:+ " " +:+ f_name uploaded_file +:+ " processed successfully!")
  end.

(** The per-file messages among the events of the page. *)
Definition is_report (e : event) : bool :=
  match e with
  | StWarning _ | StError _ | StSuccess _ => true
  | _ => false
  end.

Definition is_processed (o : file_outcome) : bool :=
  match o with
  | Processed _ => true
  | _ => false
  end.

(** The documents of the files that were processed, in order. *)
Fixpoint processed_docs (outcomes : list file_outcome) : list doc_info :=
  match outcomes with
  | [] => []
  | Processed doc :: rest => doc :: processed_docs rest
  | _ :: rest => processed_docs rest
  end.

(** [add_uploaded_document] for each document in turn. *)
Definition add_all (docs : list doc_info) (s : session_state) : session_state :=
  fold_left (fun s doc => add_uploaded_document doc s) docs s.

Section Page.
Context {libs : FormatLibraries}.
Variable cfg : config.
(** [time.time()], as read while the file at a position is processed *)
Variable time_time : nat -> Z.

(** One iteration of the loop of [process_files], with the counters
    [(successful, failed)] it updates.  Nothing raises between
    [successful += 1] and the end of the [try] block, so the counters
    the handler sees are those the iteration started with. *)
Definition process_one (total_files : Z) (counters : Z * Z)
    (item : nat * uploaded_file) : M (Z * Z) :=
  let '(successful, failed) := counters in
  let '(idx, uploaded_file) := item in
  try_except
    (emit (StProgress (Z.of_nat idx + 1) total_files) ;;
     emit (StStatus ("Processing " +:+ f_name uploaded_file +:+ "...")) ;;
     let '(is_valid, error_msg) := validate_file uploaded_file (MAX_FILE_SIZE_MB cfg) in
     if negb is_valid then
       emit (StWarning (cross_mark +:+ " " +:+ f_name uploaded_file +:+ ": " +:+ error_msg)) ;;
       ret (successful, failed + 1)
     else
       processed <- process_file uploaded_file ;;
       let '(text_content, metadata) := processed in
       chunks <- terminating (chunk_text text_content default_chunk_size default_overlap) ;;
       format <- call (match metadata !! "format" with
                       | Some v => Success v
                       | None => Failure (KeyError "format")
                       end) ;;
       let doc_info := {|
         doc_filename := f_name uploaded_file;
         doc_size := f_size uploaded_file;
         doc_type := format;
         doc_metadata := metadata;
         doc_content := text_content;
         doc_chunks := Z.of_nat (length chunks);
         doc_timestamp := time_time idx
       |} in
       modify_session (add_uploaded_document doc_info) ;;
       emit (StSuccess (check_mark +:+ " " +:+ f_name uploaded_file +:+ " processed successfully!")) ;;
       ret (successful + 1, failed))%py
    (fun e =>
       emit (StError (cross_mark +:+ " Error processing " +:+ f_name uploaded_file
                      +:+ ": " +:+ str_exc e)) ;;
       ret (successful, failed + 1))%py.

(** The loop of [process_files]: the final [(successful, failed)]. *)
Definition process_loop (uploaded_files : list uploaded_file) : M (Z * Z) :=
  let total_files := Z.of_nat (length uploaded_files) in
  for_each (process_one total_files) (enumerate 0 uploaded_files) (0, 0).

(** [process_files(uploaded_files)] *)
Definition process_files (uploaded_files : list uploaded_file) : M unit :=
  (emit (StProgress 0 1) ;;
   counters <- process_loop uploaded_files ;;
   let '(successful, failed) := counters in
   emit (StStatus ("Completed: " +:+ str_int successful +:+ " successful, "
                   +:+ str_int failed +:+ " failed")) ;;
   emit (StProgress 1 1) ;;
   if 0 <? successful then
     emit StBalloons ;;
     emit (Sleep 2) ;;
     rerun
   else ret tt)%py.

(** [process_uploaded_files(uploaded_files)] *)
Definition process_uploaded_files (clicked : option button)
    (uploaded_files : list uploaded_file) : M unit :=
  if st_button clicked BtnProcessAll then process_files uploaded_files else ret tt.

(** One iteration of the document list of
    [display_uploaded_documents]; what is only drawn is left out. *)
Definition display_one (clicked : option button) (_ : unit) (item : nat * doc_info)
  : M unit :=
  let '(idx, doc) := item in
  ((if st_button clicked (BtnDelete idx) then
      s <- get_session ;;
      popped <- call (pop (uploaded_documents s) idx) ;;
      modify_session (set_documents (snd popped)) ;;
      modify_session (fun s => set_doc_count (Z.of_nat (length (uploaded_documents s))) s) ;;
      rerun
    else ret tt) ;;
   (if st_button clicked (BtnPreview idx) then
      modify_session (set_show_preview idx true)
    else ret tt) ;;
   s <- get_session ;;
   if default false (show_preview s !! idx) then
     if st_button clicked (BtnClosePreview idx) then
       modify_session (set_show_preview idx false) ;;
       rerun
     else ret tt
   else ret tt)%py.

(** [display_uploaded_documents()] *)
Definition display_uploaded_documents (clicked : option button) : M unit :=
  (s <- get_session ;;
   for_each (display_one clicked) (enumerate 0 (uploaded_documents s)) tt ;;
   if st_button clicked BtnClearAll then
     s <- get_session ;;
     if negb (bool_decide (uploaded_documents s = [])) then
       modify_session (set_documents []) ;;
       modify_session (set_doc_count 0) ;;
       rerun
     else ret tt
   else ret tt)%py.

(** [render()], with the files in the uploader and the button
    clicked, if any. *)
Definition render (uploaded_files : list uploaded_file) (clicked : option button)
  : M unit :=
  let '(is_valid, message) := validate cfg in
  if negb is_valid then
    (emit (StError (warning_sign +:+ " Configuration Error: " +:+ message)) ;;
     emit (StInfo "Please configure AWS credentials in the Settings page") ;;
     ret tt)%py
  else
    ((if negb (bool_decide (uploaded_files = [])) then
        process_uploaded_files clicked uploaded_files
      else ret tt) ;;
     s <- get_session ;;
     if negb (bool_decide (uploaded_documents s = [])) then
       display_uploaded_documents clicked
     else
       emit (StInfo "No documents uploaded yet. Upload files above to get started."))%py.

(** What the loop does with one file, read off [process_one]. *)
Definition outcome_of (idx : nat) (uploaded_file : uploaded_file) : file_outcome :=
  let '(is_valid, error_msg) := validate_file uploaded_file (MAX_FILE_SIZE_MB cfg) in
  if negb is_valid then Rejected error_msg
  else
    let file_extension := file_extension_of (f_name uploaded_file) in
    match dict_get processors file_extension with
    | None => Failed (ValueError ("Unsupported file type: " +:+ file_extension))
    | Some processor =>
        match processor uploaded_file with
        | Failure e => Failed e
        | Success (text_content, metadata) =>
            let metadata := add_common_metadata uploaded_file file_extension metadata in
            Processed {|
              doc_filename := f_name uploaded_file;
              doc_size := f_size uploaded_file;
              doc_type := default PyNone (metadata !! "format");
              doc_metadata := metadata;
              doc_content := text_content;
              doc_chunks :=
                Z.of_nat (chunk_count text_content default_chunk_size default_overlap);
              doc_timestamp := time_time idx
            |}
        end
    end.

(** The outcomes of the files of a batch numbered from [start], and the
    messages shown for them, in input order. *)
Definition outcomes_from (start : nat) (uploaded_files : list uploaded_file)
  : list file_outcome :=
  map (fun item : nat * uploaded_file => outcome_of (fst item) (snd item))
      (enumerate start uploaded_files).

Definition reports_from (start : nat) (uploaded_files : list uploaded_file) : list event :=
  map (fun item : nat * uploaded_file =>
         report_of (snd item) (outcome_of (fst item) (snd item)))
      (enumerate start uploaded_files).

Definition outcomes_of (uploaded_files : list uploaded_file) : list file_outcome :=
  outcomes_from 0 uploaded_files.

Definition reports_of (uploaded_files : list uploaded_file) : list event :=
  reports_from 0 uploaded_files.

End Page.

End Home.

(** * Concrete inputs for the examples *)

Module Demo.
Import Config SessionManager DocumentProcessor KendraService.

Definition demo_config : config := Cfg "AKIAEXAMPLE" "secret" "us-east-1" "index-1" 10.

Definition empty_world : world := World fresh_session [].

(** Parsers that accept only a TXT upload whose content is not [!]. *)
#[local] Instance demo_libraries : FormatLibraries := {|
  json := unit;
  PdfReader := fun _ => Failure (LibraryError "PdfReadError" "EOF marker not found");
  read_decode := fun file =>
    if String.eqb (f_data file) "!"
    then Failure (LibraryError "UnicodeDecodeError" "invalid start byte")
    else Success (f_data file);
  Document := fun _ => Failure (LibraryError "PackageNotFoundError" "Package not found");
  read_csv := fun _ => Failure (LibraryError "ParserError" "Error tokenizing data");
  json_load := fun _ => Failure (LibraryError "JSONDecodeError" "Expecting value");
  json_dumps := fun _ => "null"
|}.

Definition demo_item (id : string) : result_item :=
  ResultItem (Some id) (Some "DOCUMENT") (Some (ScoreAttributes_ (Some "HIGH")))
             (Some (TextField (Some id))) None None None.

(** A backend that answers queries with three items and fails every
    other operation. *)
Definition demo_client : kendra_client := {|
  client_query := fun _ _ _ =>
    Success (QueryResponse (Some [demo_item "b"; demo_item "a"; demo_item "c"]));
  client_batch_put_document := fun _ _ => Failure (LibraryError "ClientError" "throttled");
  client_batch_delete_document := fun _ _ => Failure (LibraryError "ClientError" "throttled");
  client_get_query_suggestions := fun _ _ _ => Failure (LibraryError "ClientError" "throttled");
  client_describe_index := fun _ => Failure (LibraryError "ClientError" "throttled")
|}.

Definition demo_service : service := Service (Some demo_client) "index-1".

Definition demo_doc (name : string) : doc_info :=
  DocInfo name 3 (PyStr "TXT") ∅ "abc" 1 0.

Definition demo_files : list uploaded_file :=
  [UploadedFile "a.txt" 3 "abc"; UploadedFile "b.TXT" 1 "!"; UploadedFile "c.txt" 2 "de"].

End Demo.

(** * services/kendra_service.py: documents for ingestion *)

Module KendraFormat.
Import KendraService.

Section Format.
Context {V : Type}.
(** [str(value)] for the values of the attribute dictionary, and
    [content.encode('utf-8')] *)
Variable str : V -> string.
Variable encode_utf8 : string -> string.

(** [KendraService.format_document_for_kendra(doc_id, title, content,
    attributes)]; the dictionary is given as its items, in order. *)
Definition format_document_for_kendra (doc_id title content : string)
    (attributes : option (list (string * V))) : kendra_document :=
  let document := KendraDocument doc_id title (encode_utf8 content) "PLAIN_TEXT" None in
  match attributes with
  | None | Some [] => document
  | Some items =>
      KendraDocument (kd_Id document) (kd_Title document) (kd_Blob document)
                     (kd_ContentType document)
                     (Some (map (fun item : string * V => (fst item, str (snd item))) items))
  end.
End Format.

End KendraFormat.

(** * services/bedrock_service.py *)

Module BedrockService.


End BedrockService.

(** * Sequences of operations *)

Module Traces.
Import Config SessionManager DocumentProcessor Home.

(** The calls of [utils/session_manager.py]. *)
Inductive action : Type :=
| InitializeSessionState
| AddToChatHistory (now role content : string) (sources : option (list search_result))
                   (confidence : py_val)
| ClearChatHistory
| IncrementQueryCount
| AddUploadedDocument (doc : doc_info)
| RecordAnalytics (now now_feedback query : string) (confidence response_time : py_val)
                  (sources : list search_result) (feedback : py_val).

Definition perform (a : action) (s : session_state) : session_state :=
  match a with
  | InitializeSessionState => initialize_session_state (Some s)
  | AddToChatHistory now role content sources confidence =>
      add_to_chat_history now role content sources confidence s
  | ClearChatHistory => clear_chat_history s
  | IncrementQueryCount => increment_query_count s
  | AddUploadedDocument doc => add_uploaded_document doc s
  | RecordAnalytics now now_feedback query confidence response_time sources feedback =>
      record_analytics now now_feedback query confidence response_time sources feedback s
  end.

(** The session after a sequence of calls, first call first. *)
Definition perform_all (actions : list action) (s : session_state) : session_state :=
  fold_left (fun s a => perform a s) actions s.

(** A property of the world that a computation keeps. *)
Definition preserves {A} (P : world -> Prop) (m : M A) : Prop :=
  forall w, P w -> P (snd (m w)).

(** [c in s] for a character *)
Fixpoint contains (c : ascii) (s : string) : bool :=
  match s with
  | EmptyString => false
  | String c' s' => Ascii.eqb c' c || contains c s'
  end.

(** Successive runs of the home page: each run renders the page with the
    files in the uploader and the button clicked, on the session the run
    before left. *)
Definition render_all {libs : FormatLibraries} (cfg : config) (time_time : nat -> Z)
    (runs : list (list uploaded_file * option button)) (w : world) : world :=
  fold_left (fun w run => snd (render cfg time_time (fst run) (snd run) w)) runs w.

End Traces.

(** * The page events of a batch, and more concrete inputs *)

Module Batch.
Import Config SessionManager DocumentProcessor Home.

(** The [format] entry each handler writes, by extension. *)
Definition format_names : list (string * string) :=
  [("pdf", "PDF"); ("txt", "TXT"); ("docx", "DOCX"); ("csv", "CSV"); ("json", "JSON")].

Section Events.
Context {libs : FormatLibraries}.
Variable cfg : config.
Variable time_time : nat -> Z.

(** What one iteration of the loop of [process_files] puts on the page. *)
Definition file_events (total_files : Z) (item : nat * uploaded_file) : list event :=
  let '(idx, uploaded_file) := item in
  [StProgress (Z.of_nat idx + 1) total_files;
   StStatus ("Processing " +:+ f_name uploaded_file +:+ "...")]
  ++ (if fst (validate_file uploaded_file (MAX_FILE_SIZE_MB cfg))
      then [HandlerCall (file_extension_of (f_name uploaded_file))]
      else [])
  ++ [report_of uploaded_file (outcome_of cfg time_time idx uploaded_file)].

(** What [process_files] puts on the page. *)
Definition batch_events (uploaded_files : list uploaded_file) : list event :=
  let outcomes := outcomes_of cfg time_time uploaded_files in
  let successful := Z.of_nat (length (processed_docs outcomes)) in
  let failed :=
    Z.of_nat (length (List.filter (fun o => negb (is_processed o)) outcomes)) in
  [StProgress 0 1]
  ++ concat (map (file_events (Z.of_nat (length uploaded_files)))
                 (enumerate 0 uploaded_files))
  ++ [StStatus ("Completed: " +:+ str_int successful +:+ " successful, "
                +:+ str_int failed +:+ " failed");
      StProgress 1 1]
  ++ (if 0 <? successful then [StBalloons; Sleep 2] else []).
End Events.

(** Parsers for the examples: a PDF whose content is [?] has a page that
    cannot be read; a TXT upload decodes to its content; nothing else
    parses. *)
Definition pdf_libraries : FormatLibraries := {|
  json := unit;
  PdfReader := fun file =>
    if String.eqb (f_data file) "?"
    then Success [Success "one"; Failure (LibraryError "PdfReadError" "bad page"); Success "three"]
    else Success [Success "one"; Success "two"];
  read_decode := fun file => Success (f_data file);
  Document := fun _ => Failure (LibraryError "PackageNotFoundError" "Package not found");
  read_csv := fun _ => Failure (LibraryError "ParserError" "Error tokenizing data");
  json_load := fun _ => Failure (LibraryError "JSONDecodeError" "Expecting value");
  json_dumps := fun _ => "null"
|}.

End Batch.

(** * What a format library raised *)

Module Causes.
Import DocumentProcessor.

(** Every character of the string is an ASCII character. *)
Fixpoint is_ascii (s : string) : bool :=
  match s with
  | EmptyString => true
  | String c s' => (nat_of_ascii c <? 128)%nat && is_ascii s'
  end.

Section Raised.
Context {libs : FormatLibraries}.

(** The exception [cause] that the library of an extension raises on a
    file: the exception of the parser or, for a PDF that opens, that of
    the first page whose text cannot be extracted. *)
Definition library_raises (file_extension : string) (file : uploaded_file)
    (cause : exception) : Prop :=
  (file_extension = "pdf" /\
   (PdfReader file = Failure cause \/
    exists before after,
      PdfReader file = Success (map Success before ++ Failure cause :: after))) \/
  (file_extension = "txt" /\ read_decode file = Failure cause) \/
  (file_extension = "docx" /\ Document file = Failure cause) \/
  (file_extension = "csv" /\ read_csv file = Failure cause) \/
  (file_extension = "json" /\ json_load file = Failure cause).
End Raised.

End Causes.

(** * Theorems *)

Section ChunkerFacts.
Import DocumentProcessor.

Example chunk_text_ex1 :
  chunk_text "abcdefghij" 4 2 = Some ["abcd"; "cdef"; "efgh"; "ghij"; "ij"].
Proof. reflexivity. Qed.

Example chunk_text_ex2 :
  chunk_text "abcde" 4 3 = Some ["abcd"; "bcde"; "cde"; "de"; "e"].
Proof. reflexivity. Qed.

Example chunk_text_ex3 : chunk_text "abc" 4 3 = Some ["abc"; "bc"; "c"].
Proof. reflexivity. Qed.

Example chunk_text_ex4 : chunk_text "hello" 100 100 = None.
Proof. reflexivity. Qed.

Example chunk_text_ex5 : chunk_text "" 100 100 = Some [].
Proof. reflexivity. Qed.

Example chunk_text_ex6 : chunk_text "abcdefg" (-2) (-3) = Some ["abcde"; "bcdef"; ""; ""; ""; ""; ""].
Proof. reflexivity. Qed.

End ChunkerFacts.

(** ** Strings: take, drop and slices *)

Section StringFacts.

Lemma length_str_take n s : String.length (str_take n s) = (n `min` String.length s)%nat.
Proof.
  revert s; induction n as [|n IH]; intros [|c s]; simpl; try reflexivity.
  now rewrite IH.
Qed.

Lemma length_str_drop n s : String.length (str_drop n s) = (String.length s - n)%nat.
Proof.
  revert s; induction n as [|n IH]; intros [|c s]; simpl; try reflexivity.
  apply IH.
Qed.

Lemma str_take_all n s : (String.length s <= n)%nat -> str_take n s = s.
Proof.
  revert s; induction n as [|n IH]; intros [|c s] H; simpl in *; try reflexivity.
  - lia.
  - f_equal. apply IH. lia.
Qed.

Lemma str_drop_all n s : (String.length s <= n)%nat -> str_drop n s = "".
Proof.
  revert s; induction n as [|n IH]; intros [|c s] H; simpl in *; try reflexivity.
  - lia.
  - apply IH. lia.
Qed.

Lemma str_take_take n m s : str_take n (str_take m s) = str_take (n `min` m) s.
Proof.
  revert m s; induction n as [|n IH]; intros [|m] [|c s]; simpl; try reflexivity.
  now rewrite IH.
Qed.

Lemma str_drop_drop n m s : str_drop n (str_drop m s) = str_drop (m + n) s.
Proof.
  revert s; induction m as [|m IH]; intros s; simpl; [reflexivity|].
  destruct s as [|c s]; simpl; [now destruct n | apply IH].
Qed.

Lemma str_drop_take m n s : str_drop m (str_take n s) = str_take (n - m) (str_drop m s).
Proof.
  revert n s; induction m as [|m IH]; intros n s; simpl.
  - now rewrite Nat.sub_0_r.
  - destruct n as [|n], s as [|c s]; simpl; try reflexivity.
    + now destruct (n - m)%nat.
    + apply IH.
Qed.

Lemma str_take_min n s : str_take (n `min` String.length s) s = str_take n s.
Proof.
  destruct (Nat.le_ge_cases n (String.length s)) as [H|H].
  - now rewrite Nat.min_l.
  - rewrite Nat.min_r by assumption. now rewrite !str_take_all.
Qed.

(** A slice with bounds [0 <= a <= b] is the window of [b - a]
    characters that starts at offset [a], cut at the end of the text. *)
Lemma slice_window s a b :
  0 <= a -> a <= b ->
  slice s a b = str_take (Z.to_nat (b - a)) (str_drop (Z.to_nat a) s).
Proof.
  intros Ha Hb. unfold slice, slice_index, len.
  destruct (Z.ltb_spec a 0) as [?|_]; [lia|].
  destruct (Z.ltb_spec b 0) as [?|_]; [lia|].
  set (L := String.length s).
  destruct (Z.le_gt_cases a (Z.of_nat L)) as [HaL|HaL].
  - rewrite (Z.min_l a) by assumption.
    rewrite <- (str_take_min (Z.to_nat (b - a))).
    rewrite length_str_drop. f_equal. fold L. lia.
  - rewrite (Z.min_r a), (Z.min_r b) by lia.
    rewrite !str_drop_all by (fold L; lia).
    now destruct (Z.to_nat _), (Z.to_nat _).
Qed.

End StringFacts.

(** ** Ceiling division *)

Section CeilDiv.

Lemma ceil_div_bounds a b : 0 < b -> (ceil_div a b - 1) * b < a <= ceil_div a b * b.
Proof.
  intros Hb. unfold ceil_div.
  pose proof (Z.div_mod (- a) b ltac:(lia)) as E.
  pose proof (Z.mod_pos_bound (- a) b Hb) as B.
  nia.
Qed.

Lemma ceil_div_unique a b q : 0 < b -> (q - 1) * b < a <= q * b -> ceil_div a b = q.
Proof.
  intros Hb Hq. pose proof (ceil_div_bounds a b Hb). nia.
Qed.

Lemma ceil_div_nonpos a b : 0 < b -> a <= 0 -> ceil_div a b <= 0.
Proof. intros Hb Ha. pose proof (ceil_div_bounds a b Hb). nia. Qed.

Lemma ceil_div_pos a b : 0 < b -> 0 < a -> 0 < ceil_div a b.
Proof. intros Hb Ha. pose proof (ceil_div_bounds a b Hb). nia. Qed.

Lemma ceil_div_step a b : 0 < b -> ceil_div (a - b) b = ceil_div a b - 1.
Proof.
  intros Hb. apply ceil_div_unique; [assumption|].
  pose proof (ceil_div_bounds a b Hb). nia.
Qed.

Lemma ceil_div_le_self a b : 0 < b -> 0 <= a -> ceil_div a b <= a.
Proof. intros Hb Ha. pose proof (ceil_div_bounds a b Hb). nia. Qed.

(** [k < ceil(a / b)] exactly when [k * b < a]. *)
Lemma lt_ceil_div k a b : 0 < b -> k < ceil_div a b <-> k * b < a.
Proof. intros Hb. pose proof (ceil_div_bounds a b Hb). split; nia. Qed.

End CeilDiv.

(** ** The chunking loop *)

Section ChunkLoop.
Import DocumentProcessor.
Variables (text : string) (chunk_size overlap : Z).

Abbreviation run := (while text chunk_size overlap).
Abbreviation step := (chunk_size - overlap).
Abbreviation L := (len text).

Abbreviation iterations_from := (iterations_from text chunk_size overlap).

Lemma len_nonneg : 0 <= L.
Proof. unfold len. lia. Qed.

(** More fuel never changes the state a finished run ends in. *)
Lemma while_fuel_mono fuel fuel' st r :
  (fuel <= fuel')%nat -> run fuel st = Some r -> run fuel' st = Some r.
Proof.
  revert fuel' st; induction fuel as [|fuel IH]; intros fuel' st Hle H.
  - destruct fuel'; simpl in *; destruct (loop_cond text st); congruence.
  - destruct fuel' as [|fuel']; [lia|]. simpl in *.
    destruct (loop_cond text st); [|assumption].
    apply IH; [lia | assumption].
Qed.

(** With a window that advances, the loop makes [iterations_from]
    iterations and appends one window per iteration. *)
Lemma while_windows n : forall fuel st,
  0 < step -> iterations_from (start st) = n -> (n <= fuel)%nat ->
  run fuel st =
    Some (LoopState (chunks st ++ windows text chunk_size overlap n (start st))
                    (start st + Z.of_nat n * step)).
Proof.
  induction n as [|n IH]; intros fuel [cs s] Hstep Hn Hfuel;
    unfold iterations_from in Hn; simpl in Hn.
  - assert (L - s <= 0) as Hs.
    { destruct (Z.le_gt_cases (L - s) 0) as [?|Hpos]; [assumption|].
      pose proof (ceil_div_pos _ _ Hstep Hpos). lia. }
    destruct fuel; simpl; unfold loop_cond, text_length; simpl;
      (destruct (Z.ltb_spec s L); [lia|]);
      rewrite app_nil_r; do 2 f_equal; lia.
  - assert (0 < L - s) as Hs.
    { destruct (Z.le_gt_cases (L - s) 0) as [Hle|?]; [|lia].
      pose proof (ceil_div_nonpos _ _ Hstep Hle). lia. }
    destruct fuel as [|fuel]; [lia|]. simpl.
    unfold loop_cond at 1, text_length; simpl.
    destruct (Z.ltb_spec s L); [|lia].
    rewrite IH; simpl; try lia.
    + rewrite <- app_assoc. simpl. do 2 f_equal. lia.
    + unfold iterations_from.
      replace (L - (s + chunk_size - overlap)) with (L - s - step) by lia.
      rewrite ceil_div_step by assumption. lia.
Qed.

(** With a window that does not advance, a non-empty text keeps the
    loop running whatever the fuel. *)
Lemma while_stuck fuel : forall st,
  step <= 0 -> 0 < L -> start st <= 0 -> run fuel st = None.
Proof.
  induction fuel as [|fuel IH]; intros [cs s] Hstep HL Hs; simpl in *;
    unfold loop_cond, text_length; simpl;
    (destruct (Z.ltb_spec s L); [|lia]); [reflexivity|].
  apply IH; simpl; lia.
Qed.

Lemma windows_length n s : length (windows text chunk_size overlap n s) = n.
Proof. revert s; induction n as [|n IH]; intros s; simpl; [|rewrite IH]; reflexivity. Qed.

Lemma windows_lookup n : forall s i,
  (i < n)%nat ->
  windows text chunk_size overlap n s !! i =
    Some (slice text (s + Z.of_nat i * step) (s + Z.of_nat i * step + chunk_size)).
Proof.
  induction n as [|n IH]; intros s i Hi; [lia|].
  destruct i as [|i]; simpl.
  - do 2 f_equal; lia.
  - rewrite IH by lia. do 2 f_equal; lia.
Qed.

Abbreviation chunk_count := (chunk_count text chunk_size overlap).

Lemma chunk_count_le_len : 0 < step -> (chunk_count <= String.length text)%nat.
Proof.
  intros Hstep. unfold chunk_count.
  pose proof (ceil_div_le_self L step Hstep len_nonneg). unfold len in *. lia.
Qed.

Lemma chunk_text_fuel_windows fuel :
  0 < step -> (String.length text <= fuel)%nat ->
  chunk_text_fuel fuel text chunk_size overlap =
    Some (windows text chunk_size overlap chunk_count 0).
Proof.
  intros Hstep Hfuel. unfold chunk_text_fuel.
  rewrite (while_windows chunk_count); simpl; try assumption.
  - reflexivity.
  - unfold iterations_from, chunk_count. simpl. now rewrite Z.sub_0_r.
  - pose proof (chunk_count_le_len Hstep). lia.
Qed.

Lemma chunk_text_windows :
  0 < step ->
  chunk_text text chunk_size overlap = Some (windows text chunk_size overlap chunk_count 0).
Proof. intros Hstep. now apply chunk_text_fuel_windows. Qed.

Lemma chunk_text_fuel_stuck fuel :
  step <= 0 -> text <> "" -> chunk_text_fuel fuel text chunk_size overlap = None.
Proof.
  intros Hstep Hne. unfold chunk_text_fuel.
  rewrite while_stuck; simpl; try lia; [reflexivity|].
  unfold len. destruct text; [congruence | simpl; lia].
Qed.

(** [chunk_text] is given enough fuel: whatever a run with any fuel
    returns, [chunk_text] returns. *)
Lemma chunk_text_fuel_adequate fuel r :
  chunk_text_fuel fuel text chunk_size overlap = Some r ->
  chunk_text text chunk_size overlap = Some r.
Proof.
  intros H. destruct (Z.lt_ge_cases 0 step) as [Hstep|Hstep].
  - unfold chunk_text, chunk_text_fuel in *.
    destruct (run fuel loop_init) as [st|] eqn:E; [|discriminate].
    destruct (run (String.length text) loop_init) as [st'|] eqn:E'.
    + apply (while_fuel_mono _ (fuel `max` String.length text)%nat) in E; [|lia].
      apply (while_fuel_mono _ (fuel `max` String.length text)%nat) in E'; [|lia].
      congruence.
    + pose proof (chunk_text_fuel_windows (String.length text) Hstep ltac:(lia)) as W.
      unfold chunk_text_fuel in W. rewrite E' in W. discriminate.
  - destruct (string_dec text "") as [He|Hne].
    + unfold chunk_text. destruct fuel; rewrite He in *; exact H.
    + rewrite chunk_text_fuel_stuck in H by (lia || assumption). discriminate.
Qed.

End ChunkLoop.

(** ** Chunk count and overlap *)

Section ChunkerClaims.
Import DocumentProcessor.

(** C1, as stated, fails: ten characters cut with [chunk_size = 4] and
    [overlap = 2] give five chunks where the stated formula gives four,
    and three characters with [chunk_size = 4] and [overlap = 3] give
    three chunks where the stated value is one. *)
Lemma chunk_count_counterexample :
  (exists chunks,
     chunk_text "abcdefghij" 4 2 = Some chunks /\
     2 < 4 /\ len "abcdefghij" > 2 /\
     Z.of_nat (length chunks) <> ceil_div (len "abcdefghij" - 2) (4 - 2)) /\
  (exists chunks,
     chunk_text "abc" 4 3 = Some chunks /\
     3 < 4 /\ 0 < len "abc" <= 3 /\
     Z.of_nat (length chunks) <> 1).
Proof.
  split; eexists; (split; [reflexivity|]); vm_compute; intuition congruence.
Qed.

(** C1, amended: for every text and every [overlap < chunk_size],
    [chunk_text] returns, and the number of chunks is
    [ceil(len(text) / (chunk_size - overlap))]; it is 0 for the empty
    text. *)
Theorem chunk_count_formula text chunk_size overlap :
  overlap < chunk_size ->
  exists chunks,
    (forall fuel, (String.length text <= fuel)%nat ->
                  chunk_text_fuel fuel text chunk_size overlap = Some chunks) /\
    chunk_text text chunk_size overlap = Some chunks /\
    Z.of_nat (length chunks) = ceil_div (len text) (chunk_size - overlap) /\
    (text = "" -> chunks = []).
Proof.
  intros Hlt. assert (0 < chunk_size - overlap) as Hstep by lia.
  exists (windows text chunk_size overlap (chunk_count text chunk_size overlap) 0).
  split; [|split; [|split]].
  - intros fuel Hfuel. now apply chunk_text_fuel_windows.
  - now apply chunk_text_windows.
  - rewrite windows_length. unfold chunk_count.
    pose proof (len_nonneg text).
    destruct (Z.eq_dec (len text) 0) as [E|E].
    + rewrite E. reflexivity.
    + pose proof (ceil_div_pos (len text) _ Hstep ltac:(lia)). lia.
  - intros ->. reflexivity.
Qed.

Lemma chunk_count_formula_witness :
  exists chunks,
    (forall fuel, (String.length "abcdefghij" <= fuel)%nat ->
                  chunk_text_fuel fuel "abcdefghij" 4 2 = Some chunks) /\
    chunk_text "abcdefghij" 4 2 = Some chunks /\
    Z.of_nat (length chunks) = ceil_div (len "abcdefghij") (4 - 2) /\
    ("abcdefghij" = "" -> chunks = []).
Proof. apply (chunk_count_formula "abcdefghij" 4 2). lia. Defined.

(** C2: with [chunk_size = 100] and [overlap = 100] the loop on a
    non-empty text is still running after any number of iterations: the
    call never returns and raises nothing. *)
Theorem chunk_text_equal_overlap_never_returns :
  forall fuel, chunk_text_fuel fuel "hello" 100 100 = None.
Proof. intros fuel. apply chunk_text_fuel_stuck; [lia | discriminate]. Qed.

(** On the empty text the same configuration returns the empty list. *)
Lemma chunk_text_empty chunk_size overlap : chunk_text "" chunk_size overlap = Some [].
Proof. reflexivity. Qed.

(** Adjacent chunks share [overlap] characters when the first of the
    two has all its [chunk_size] characters. *)
Lemma overlap_of_full_chunk text chunk_size overlap chunks i c1 c2 :
  0 <= overlap < chunk_size ->
  chunk_text text chunk_size overlap = Some chunks ->
  chunks !! i = Some c1 -> chunks !! S i = Some c2 ->
  len c1 = chunk_size ->
  last_chars overlap c1 = first_chars overlap c2.
Proof.
  intros Hov Hrun H1 H2 Hfull.
  rewrite chunk_text_windows in Hrun by lia. injection Hrun as <-.
  pose proof (lookup_lt_Some _ _ _ H2) as Hi. rewrite windows_length in Hi.
  rewrite windows_lookup in H1 by lia. rewrite windows_lookup in H2 by lia.
  injection H1 as <-. injection H2 as <-.
  unfold last_chars, first_chars. unfold len in Hfull.
  apply (f_equal Z.to_nat) in Hfull. rewrite Nat2Z.id in Hfull. rewrite Hfull.
  rewrite !slice_window by nia.
  rewrite str_drop_take, str_drop_drop, str_take_take.
  f_equal; [|f_equal]; nia.
Qed.

(** C4, as stated, fails: in the chunks of [abcde] for [chunk_size = 4]
    and [overlap = 3], which are abcd, bcde, cde, de, e, the pair at
    positions 2 and 3 is not the last pair, and the last three
    characters of the one differ from the first three of the other. *)
Lemma overlap_invariant_counterexample :
  exists chunks c1 c2,
    0 <= 3 < 4 /\
    chunk_text "abcde" 4 3 = Some chunks /\
    chunks !! 2%nat = Some c1 /\ chunks !! 3%nat = Some c2 /\
    (3 < length chunks - 1)%nat /\
    last_chars 3 c1 <> first_chars 3 c2.
Proof.
  exists ["abcd"; "bcde"; "cde"; "de"; "e"], "cde", "de".
  repeat split; try reflexivity; try lia; try (simpl; lia).
  vm_compute. discriminate.
Qed.

(** C4, amended: for every text and every [0 <= overlap < chunk_size],
    and for every adjacent pair of chunks whose first chunk has
    [chunk_size] characters, the last [overlap] characters of
    [chunk[i]] equal the first [overlap] characters of [chunk[i+1]]. *)
Theorem overlap_invariant_full_chunk text chunk_size overlap chunks i c1 c2 :
  0 <= overlap < chunk_size ->
  chunk_text text chunk_size overlap = Some chunks ->
  chunks !! i = Some c1 -> chunks !! S i = Some c2 ->
  len c1 = chunk_size ->
  last_chars overlap c1 = first_chars overlap c2.
Proof. apply overlap_of_full_chunk. Qed.

Lemma overlap_invariant_full_chunk_witness :
  last_chars 3 "bcde" = first_chars 3 "cde".
Proof.
  apply (overlap_invariant_full_chunk "abcde" 4 3
           ["abcd"; "bcde"; "cde"; "de"; "e"] 1 "bcde" "cde");
    [lia | reflexivity | reflexivity | reflexivity | reflexivity].
Defined.

(** When the overlap is at most half the chunk size, every pair but the
    last one has a full first chunk, and the invariant holds as the
    specification words it. *)
Lemma overlap_invariant_small_overlap text chunk_size overlap chunks i c1 c2 :
  0 <= overlap -> 2 * overlap <= chunk_size -> overlap < chunk_size ->
  chunk_text text chunk_size overlap = Some chunks ->
  chunks !! i = Some c1 -> chunks !! S i = Some c2 ->
  (S i < length chunks - 1)%nat ->
  last_chars overlap c1 = first_chars overlap c2.
Proof.
  intros Hov Hhalf Hlt Hrun H1 H2 Hnotlast.
  apply (overlap_of_full_chunk text chunk_size overlap chunks i c1 c2);
    try assumption; [lia|].
  rewrite chunk_text_windows in Hrun by lia. injection Hrun as <-.
  rewrite windows_length in Hnotlast.
  rewrite windows_lookup in H1 by lia. injection H1 as <-.
  assert (Z.of_nat i + 2 < ceil_div (len text) (chunk_size - overlap)) as Hk.
  { unfold chunk_count in Hnotlast. lia. }
  apply lt_ceil_div in Hk; [|lia].
  rewrite slice_window by nia.
  unfold len in *. rewrite length_str_take, length_str_drop. nia.
Qed.

(** The Python expressions of the invariant: for a positive [k],
    [c[-k:]] is the last [k] characters and [c[:k]] the first [k]; for
    [k = 0] the expression [c[-0:]] is the whole of [c]. *)
Lemma slice_from_last_chars k c : 0 < k -> slice_from c (- k) = last_chars k c.
Proof.
  intros Hk. unfold slice_from, slice, slice_index, last_chars, len.
  destruct (Z.ltb_spec (- k) 0) as [_|?]; [|lia].
  destruct (Z.ltb_spec (Z.of_nat (String.length c)) 0) as [?|_]; [lia|].
  rewrite Z.min_id.
  replace (Z.to_nat (Z.max (- k + Z.of_nat (String.length c)) 0))
    with (String.length c - Z.to_nat k)%nat by lia.
  apply str_take_all. rewrite length_str_drop. lia.
Qed.

Lemma slice_to_first_chars k c : 0 <= k -> slice_to c k = first_chars k c.
Proof.
  intros Hk. unfold slice_to, first_chars. rewrite slice_window by lia.
  rewrite Z.sub_0_r. reflexivity.
Qed.

Example slice_from_minus_zero : slice_from "abcd" (- 0) = "abcd".
Proof. reflexivity. Qed.

End ChunkerClaims.

(** ** The session record *)

Section SessionFacts.
Import SessionManager.

Lemma add_uploaded_document_documents doc s :
  uploaded_documents (add_uploaded_document doc s) = uploaded_documents s ++ [doc].
Proof. reflexivity. Qed.

Lemma add_uploaded_document_count doc s :
  doc_count (add_uploaded_document doc s)
  = Z.of_nat (length (uploaded_documents (add_uploaded_document doc s))).
Proof. reflexivity. Qed.

(** C10: [clear_chat_history] empties [current_conversation] and leaves
    every other field of the session as it was; a message appended by
    [add_to_chat_history] is still in [chat_history] afterwards. *)
Theorem clear_chat_history_frame s :
  let s' := clear_chat_history s in
  current_conversation s' = [] /\
  (chat_history s' = chat_history s /\
   query_count s' = query_count s /\
   query_history s' = query_history s /\
   analytics_data s' = analytics_data s /\
   config_validated s' = config_validated s /\
   uploaded_documents s' = uploaded_documents s /\
   doc_count s' = doc_count s /\
   kendra_client s' = kendra_client s /\
   bedrock_client s' = bedrock_client s /\
   show_sources s' = show_sources s /\
   streaming_enabled s' = streaming_enabled s /\
   show_preview s' = show_preview s) /\
  (forall now role content sources confidence,
     let added := add_to_chat_history now role content sources confidence s in
     chat_history (clear_chat_history added)
     = chat_history s ++ [Message role content now (default [] sources) confidence] /\
     current_conversation (clear_chat_history added) = []).
Proof.
  split; [reflexivity|]. split; [repeat split|].
  intros now role content sources confidence. split; reflexivity.
Qed.

End SessionFacts.

(** ** The gateway to the search backend *)

Section KendraFacts.
Import Config KendraService.

Lemma append_items_map items : forall acc,
  append_items items acc = acc ++ map normalize_item items.
Proof.
  unfold append_items. induction items as [|item items IH]; intros acc; simpl.
  - now rewrite app_nil_r.
  - rewrite IH. now rewrite <- app_assoc.
Qed.

(** [initialize_client] sets the client when [boto3.client] returns one
    and leaves the service as it was when it raises. *)
Lemma initialize_client_success boto3_client cfg self aws_credentials :
  fst (snd (initialize_client boto3_client cfg self aws_credentials)) = true ->
  is_Some (client (fst (initialize_client boto3_client cfg self aws_credentials))).
Proof.
  unfold initialize_client.
  destruct aws_credentials; destruct (boto3_client _); simpl; eauto; discriminate.
Qed.

Lemma initialize_client_failure boto3_client cfg self aws_credentials :
  fst (snd (initialize_client boto3_client cfg self aws_credentials)) = false ->
  fst (initialize_client boto3_client cfg self aws_credentials) = self.
Proof.
  unfold initialize_client.
  destruct aws_credentials; destruct (boto3_client _); simpl; congruence.
Qed.

(** C3, as stated, fails for [get_query_suggestions]: on a service that
    was never connected it returns the empty list and raises nothing. *)
Lemma not_connected_counterexample :
  client (init Demo.demo_config) = None /\
  get_query_suggestions (init Demo.demo_config) "ken" 5 Demo.empty_world
  = (Ok [], Demo.empty_world) /\
  fst (get_query_suggestions (init Demo.demo_config) "ken" 5 Demo.empty_world)
  <> Raise (Exc not_initialized).
Proof. repeat split. discriminate. Qed.

(** C3, amended: on a service without a client, [query],
    [batch_put_document], [delete_document] and [describe_index] raise
    the not-initialized exception without calling the backend, and
    [get_query_suggestions] returns the empty list. *)
Theorem operations_before_connection self w :
  client self = None ->
  (forall query_text max_results,
     query self query_text max_results w = (Raise (Exc not_initialized), w)) /\
  (forall documents,
     batch_put_document self documents w = (Raise (Exc not_initialized), w)) /\
  (forall document_id,
     delete_document self document_id w = (Raise (Exc not_initialized), w)) /\
  describe_index self w = (Raise (Exc not_initialized), w) /\
  (forall query_text max_suggestions,
     get_query_suggestions self query_text max_suggestions w = (Ok [], w)).
Proof.
  intros Hnone.
  unfold query, batch_put_document, delete_document, describe_index,
    get_query_suggestions.
  rewrite Hnone. repeat split.
Qed.

Lemma operations_before_connection_witness :
  (forall query_text max_results,
     query (init Demo.demo_config) query_text max_results Demo.empty_world
     = (Raise (Exc not_initialized), Demo.empty_world)) /\
  (forall documents,
     batch_put_document (init Demo.demo_config) documents Demo.empty_world
     = (Raise (Exc not_initialized), Demo.empty_world)) /\
  (forall document_id,
     delete_document (init Demo.demo_config) document_id Demo.empty_world
     = (Raise (Exc not_initialized), Demo.empty_world)) /\
  describe_index (init Demo.demo_config) Demo.empty_world
  = (Raise (Exc not_initialized), Demo.empty_world) /\
  (forall query_text max_suggestions,
     get_query_suggestions (init Demo.demo_config) query_text max_suggestions
                           Demo.empty_world
     = (Ok [], Demo.empty_world)).
Proof.
  apply (operations_before_connection (init Demo.demo_config) Demo.empty_world).
  reflexivity.
Defined.

(** C6: when the backend call of [get_query_suggestions] fails, with
    whatever exception, the operation returns the empty list; the failure
    is shown as a warning and not raised. *)
Theorem suggestions_swallow_backend_failure self c query_text max_suggestions e w :
  client self = Some c ->
  client_get_query_suggestions c (index_id self) query_text max_suggestions = Failure e ->
  get_query_suggestions self query_text max_suggestions w
  = (Ok [],
     World (session w)
           (page w ++ [Backend (CallGetQuerySuggestions (index_id self) query_text
                                                        max_suggestions);
                       StWarning ("Failed to get suggestions: " +:+ str_exc e)])).
Proof.
  intros Hc Hfail. unfold get_query_suggestions. rewrite Hc.
  unfold try_except, bind, emit, call. simpl. rewrite Hfail. simpl.
  now rewrite <- app_assoc.
Qed.

Lemma suggestions_swallow_backend_failure_witness :
  get_query_suggestions Demo.demo_service "ken" 5 Demo.empty_world
  = (Ok [],
     World SessionManager.fresh_session
           [Backend (CallGetQuerySuggestions "index-1" "ken" 5);
            StWarning "Failed to get suggestions: throttled"]).
Proof.
  apply (suggestions_swallow_backend_failure Demo.demo_service Demo.demo_client
           "ken" 5 (LibraryError "ClientError" "throttled") Demo.empty_world);
    reflexivity.
Defined.

(** C8: when the backend answers a query, [query] returns one item per
    [ResultItems] entry, at the same position, carrying the id, type,
    confidence, title, excerpt, URI and attributes of that entry (or the
    default of a missing one), so the ids, titles and excerpts come out
    in the order of the backend; and the page size it passes is
    [max_results], or [KENDRA_MAX_RESULTS] when none is given. *)
Theorem query_keeps_backend_order self c query_text max_results response w :
  let page_size := match max_results with
                   | Some n => n
                   | None => KENDRA_MAX_RESULTS
                   end in
  let backend_items := default [] (ResultItems response) in
  client self = Some c ->
  client_query c (index_id self) query_text page_size = Success response ->
  exists results,
    query self query_text max_results w
    = (Ok results,
       World (session w)
             (page w ++ [Backend (CallQuery (index_id self) query_text page_size)])) /\
    qr_query results = query_text /\
    qr_total_results results = Z.of_nat (length backend_items) /\
    qr_items results = map normalize_item backend_items /\
    length (qr_items results) = length backend_items /\
    (forall i, qr_items results !! i = normalize_item <$> backend_items !! i) /\
    (forall i item,
       backend_items !! i = Some item ->
       qr_items results !! i
       = Some {| sr_id := default "" (Id item);
                 sr_type := default "" (Type_ item);
                 sr_score := default "UNKNOWN" (ScoreAttributes item ≫= ScoreConfidence);
                 sr_document_title := default "Untitled" (DocumentTitle item ≫= Text);
                 sr_document_excerpt := default "" (DocumentExcerpt item ≫= Text);
                 sr_document_uri := default "" (DocumentURI item);
                 sr_attributes := default [] (DocumentAttributes item) |}) /\
    map sr_id (qr_items results) = map (fun item => default "" (Id item)) backend_items /\
    map sr_document_title (qr_items results)
    = map (fun item => default "Untitled" (DocumentTitle item ≫= Text)) backend_items /\
    map sr_document_excerpt (qr_items results)
    = map (fun item => default "" (DocumentExcerpt item ≫= Text)) backend_items.
Proof.
  intros page_size backend_items Hc Hresp.
  exists (QueryResults query_text (Z.of_nat (length backend_items))
                       (map normalize_item backend_items)).
  split; [|split; [|split; [|split; [|split; [|split; [|split; [|split; [|split]]]]]]]].
  - unfold query. rewrite Hc.
    unfold try_except, bind, emit, call. simpl.
    replace (default KENDRA_MAX_RESULTS max_results) with page_size
      by (now destruct max_results).
    rewrite Hresp. simpl. now rewrite append_items_map.
  - reflexivity.
  - reflexivity.
  - reflexivity.
  - simpl. now rewrite length_map.
  - intros i. simpl. apply list_lookup_fmap.
  - intros i item Hitem. cbn [qr_items].
    rewrite list_lookup_fmap, Hitem. cbn [fmap option_fmap option_map]. f_equal.
    unfold normalize_item.
    destruct item as [id type [[score]|] [[title]|] [[excerpt]|] uri attributes];
      reflexivity.
  - cbn [qr_items]. rewrite map_map. apply map_ext. intros item. reflexivity.
  - cbn [qr_items]. rewrite map_map. apply map_ext.
    intros [id type score [[title]|] excerpt uri attributes]; reflexivity.
  - cbn [qr_items]. rewrite map_map. apply map_ext.
    intros [id type score title [[excerpt]|] uri attributes]; reflexivity.
Qed.

Lemma query_keeps_backend_order_witness :
  exists results,
    query Demo.demo_service "kendra" None Demo.empty_world
    = (Ok results,
       World SessionManager.fresh_session [Backend (CallQuery "index-1" "kendra" 5)]) /\
    qr_query results = "kendra" /\
    qr_total_results results = 3 /\
    qr_items results
    = map normalize_item [Demo.demo_item "b"; Demo.demo_item "a"; Demo.demo_item "c"] /\
    length (qr_items results) = 3%nat /\
    (forall i, qr_items results !! i
               = normalize_item
                   <$> [Demo.demo_item "b"; Demo.demo_item "a"; Demo.demo_item "c"] !! i) /\
    (forall i item,
       [Demo.demo_item "b"; Demo.demo_item "a"; Demo.demo_item "c"] !! i = Some item ->
       qr_items results !! i
       = Some {| sr_id := default "" (Id item);
                 sr_type := default "" (Type_ item);
                 sr_score := default "UNKNOWN" (ScoreAttributes item ≫= ScoreConfidence);
                 sr_document_title := default "Untitled" (DocumentTitle item ≫= Text);
                 sr_document_excerpt := default "" (DocumentExcerpt item ≫= Text);
                 sr_document_uri := default "" (DocumentURI item);
                 sr_attributes := default [] (DocumentAttributes item) |}) /\
    map sr_id (qr_items results) = ["b"; "a"; "c"] /\
    map sr_document_title (qr_items results) = ["b"; "a"; "c"] /\
    map sr_document_excerpt (qr_items results) = [""; ""; ""].
Proof.
  apply (query_keeps_backend_order Demo.demo_service Demo.demo_client "kendra" None
           (QueryResponse (Some [Demo.demo_item "b"; Demo.demo_item "a"; Demo.demo_item "c"]))
           Demo.empty_world);
    reflexivity.
Defined.

End KendraFacts.

(** ** Dispatch on the file extension *)

Section DispatchFacts.
Import DocumentProcessor.
Context {libs : FormatLibraries}.

Example file_extension_of_upper : file_extension_of "Report.Final.PDF" = "pdf".
Proof. reflexivity. Qed.

Example file_extension_of_no_dot : file_extension_of "README" = "readme".
Proof. reflexivity. Qed.

Lemma lower_ascii_idem c : lower_ascii (lower_ascii c) = lower_ascii c.
Proof. destruct c as [[] [] [] [] [] [] [] []]; reflexivity. Qed.

Lemma lower_ascii_dot c : Ascii.eqb (lower_ascii c) "." = Ascii.eqb c ".".
Proof. destruct c as [[] [] [] [] [] [] [] []]; reflexivity. Qed.

Lemma lower_idem s : lower (lower s) = lower s.
Proof. induction s as [|c s IH]; simpl; [|rewrite lower_ascii_idem, IH]; reflexivity. Qed.

Lemma split_nonempty sep s : split sep s <> [].
Proof.
  destruct s as [|c s]; simpl; [discriminate|].
  destruct (Ascii.eqb c sep); [discriminate|].
  destruct (split sep s); discriminate.
Qed.

Lemma split_lower s : split "." (lower s) = map lower (split "." s).
Proof.
  induction s as [|c s IH]; simpl; [reflexivity|].
  rewrite lower_ascii_dot. destruct (Ascii.eqb c ".").
  - simpl. now rewrite IH.
  - rewrite IH. pose proof (split_nonempty "." s).
    destruct (split "." s); [congruence | reflexivity].
Qed.

Lemma last_map_lower l : List.last (map lower l) "" = lower (List.last l "").
Proof.
  induction l as [|x l IH]; [reflexivity|].
  destruct l as [|y l]; [reflexivity|]. exact IH.
Qed.

(** The extension does not depend on the case of the letters of the name. *)
Lemma file_extension_of_lower name : file_extension_of (lower name) = file_extension_of name.
Proof.
  unfold file_extension_of. now rewrite split_lower, last_map_lower, lower_idem.
Qed.

Lemma dict_get_processors_unsupported ext :
  ext ∉ ["pdf"; "txt"; "docx"; "csv"; "json"] -> dict_get processors ext = None.
Proof.
  intros Hnot. rewrite !not_elem_of_cons in Hnot.
  destruct Hnot as (H1 & H2 & H3 & H4 & H5 & _).
  unfold processors. cbn [dict_get].
  repeat match goal with
         | |- context [String.eqb ?k ext] =>
             destruct (String.eqb_spec k ext); [congruence|]
         end.
  reflexivity.
Qed.

Lemma dict_get_processors_supported key processor :
  (key, processor) ∈ processors -> dict_get processors key = Some processor.
Proof.
  unfold processors. rewrite !elem_of_cons, elem_of_nil.
  intros [H|[H|[H|[H|[H|[]]]]]]; injection H as -> ->; reflexivity.
Qed.

(** C7: the extension [process_file] dispatches on is the lower-cased
    text after the last dot, the same for names that differ only in the
    case of their letters; each of the five extensions selects its
    handler; any other extension raises the unsupported-type error and no
    handler is entered. *)
Theorem process_file_dispatch uploaded_file w :
  let ext := lower (List.last (split "." (f_name uploaded_file)) "") in
  (forall other, lower (f_name other) = lower (f_name uploaded_file) ->
                 file_extension_of (f_name other) = ext) /\
  (forall key processor,
     (key, processor) ∈ processors -> ext = key ->
     process_file uploaded_file w
     = match processor uploaded_file with
       | Success (text_content, metadata) =>
           (Ok (text_content, add_common_metadata uploaded_file key metadata),
            World (session w) (page w ++ [HandlerCall key]))
       | Failure e => (Raise (Exc e), World (session w) (page w ++ [HandlerCall key]))
       end) /\
  (ext ∉ ["pdf"; "txt"; "docx"; "csv"; "json"] ->
   process_file uploaded_file w
   = (Raise (Exc (ValueError ("Unsupported file type: " +:+ ext))), w)).
Proof.
  intros ext.
  assert (file_extension_of (f_name uploaded_file) = ext) as Hext by reflexivity.
  split; [|split].
  - intros other Hcase.
    rewrite <- (file_extension_of_lower (f_name other)), Hcase, <- Hext.
    apply file_extension_of_lower.
  - intros key processor Hin Hkey. unfold process_file. cbv zeta.
    rewrite Hext, Hkey, (dict_get_processors_supported _ _ Hin).
    unfold bind, emit, call. simpl.
    destruct (processor uploaded_file) as [[text_content metadata]|e]; reflexivity.
  - intros Hnot. unfold process_file. cbv zeta.
    rewrite Hext. now rewrite dict_get_processors_unsupported.
Qed.

End DispatchFacts.

Section DispatchWitness.
Import DocumentProcessor.

Lemma process_file_dispatch_witness :
  file_extension_of "NOTES.Txt" = "txt" /\
  process_file (libs := Demo.demo_libraries) (UploadedFile "notes.TXT" 3 "abc")
               Demo.empty_world
  = (Ok ("abc", add_common_metadata (UploadedFile "notes.TXT" 3 "abc") "txt"
                  (<["size" := PyInt 3]> (<["format" := PyStr "TXT"]> ∅))),
     World SessionManager.fresh_session [HandlerCall "txt"]) /\
  process_file (libs := Demo.demo_libraries) (UploadedFile "notes.XYZ" 10 "")
               Demo.empty_world
  = (Raise (Exc (ValueError "Unsupported file type: xyz")), Demo.empty_world).
Proof.
  split; [|split].
  - apply (proj1 (process_file_dispatch (libs := Demo.demo_libraries)
                    (UploadedFile "notes.TXT" 3 "abc") Demo.empty_world)
                 (UploadedFile "NOTES.Txt" 3 "abc")).
    reflexivity.
  - apply (proj1 (proj2 (process_file_dispatch (libs := Demo.demo_libraries)
                           (UploadedFile "notes.TXT" 3 "abc") Demo.empty_world))
                 "txt" (process_txt (libs := Demo.demo_libraries))).
    + unfold processors. apply list_elem_of_further, list_elem_of_here.
    + reflexivity.
  - apply (proj2 (proj2 (process_file_dispatch (libs := Demo.demo_libraries)
                           (UploadedFile "notes.XYZ" 10 "") Demo.empty_world))).
    apply (bool_decide_unpack _). vm_compute. exact I.
Defined.

End DispatchWitness.

(** ** The document list of the home page *)

Section DocumentListFacts.
Import Config SessionManager DocumentProcessor Home.
Context {libs : FormatLibraries}.
Variable cfg : config.
Variable time_time : nat -> Z.

Lemma st_button_same b : st_button (Some b) b = true.
Proof. unfold st_button. now apply bool_decide_eq_true_2. Qed.

Lemma st_button_other b b' : b <> b' -> st_button (Some b) b' = false.
Proof. intros H. unfold st_button. apply bool_decide_eq_false_2. congruence. Qed.

(** An iteration whose three buttons were not clicked changes nothing. *)
Lemma display_one_idle clicked idx doc w :
  st_button clicked (BtnDelete idx) = false ->
  st_button clicked (BtnPreview idx) = false ->
  st_button clicked (BtnClosePreview idx) = false ->
  display_one clicked tt (idx, doc) w = (Ok tt, w).
Proof.
  intros Hd Hp Hc. unfold display_one. rewrite Hd, Hp, Hc.
  unfold bind, get_session, ret. simpl.
  destruct (default false (show_preview (session w) !! idx)); reflexivity.
Qed.

Lemma display_loop_idle clicked docs : forall start w,
  (forall idx, st_button clicked (BtnDelete idx) = false /\
               st_button clicked (BtnPreview idx) = false /\
               st_button clicked (BtnClosePreview idx) = false) ->
  for_each (display_one clicked) (enumerate start docs) tt w = (Ok tt, w).
Proof.
  induction docs as [|doc docs IH]; intros start w Hidle; [reflexivity|].
  cbn [for_each enumerate]. unfold bind at 1.
  destruct (Hidle start) as (Hd & Hp & Hc).
  rewrite display_one_idle by assumption. now apply IH.
Qed.

(** The session after the Delete button of position [idx]. *)
Lemma display_loop_delete idx removed docs : forall start w,
  (start <= idx < start + length docs)%nat ->
  uploaded_documents (session w) !! idx = Some removed ->
  for_each (display_one (Some (BtnDelete idx))) (enumerate start docs) tt w
  = (Raise RerunException,
     World (set_doc_count
              (Z.of_nat (length (delete idx (uploaded_documents (session w)))))
              (set_documents (delete idx (uploaded_documents (session w))) (session w)))
           (page w)).
Proof.
  induction docs as [|doc docs IH]; intros start w Hrange Hlookup;
    cbn [for_each enumerate length] in *; [lia|].
  unfold bind at 1.
  destruct (decide (start = idx)) as [->|Hne].
  - unfold display_one. rewrite st_button_same.
    unfold bind, get_session, call, pop, modify_session, rerun, ret. simpl.
    rewrite Hlookup. reflexivity.
  - rewrite display_one_idle by (apply st_button_other; congruence).
    apply IH; [lia | assumption].
Qed.

(** C9: [doc_count] equals the length of [uploaded_documents] after
    [add_uploaded_document], after the Delete button of any listed
    document, and after the Clear All button of a page that lists
    documents. *)
Theorem doc_count_tracks_documents :
  (forall doc s,
     doc_count (add_uploaded_document doc s)
     = Z.of_nat (length (uploaded_documents (add_uploaded_document doc s)))) /\
  (forall w idx,
     (idx < length (uploaded_documents (session w)))%nat ->
     exists w',
       display_uploaded_documents (Some (BtnDelete idx)) w = (Raise RerunException, w') /\
       uploaded_documents (session w') = delete idx (uploaded_documents (session w)) /\
       doc_count (session w') = Z.of_nat (length (uploaded_documents (session w')))) /\
  (forall w,
     uploaded_documents (session w) <> [] ->
     exists w',
       display_uploaded_documents (Some BtnClearAll) w = (Raise RerunException, w') /\
       uploaded_documents (session w') = [] /\
       doc_count (session w') = Z.of_nat (length (uploaded_documents (session w')))).
Proof.
  split; [|split].
  - intros doc s. reflexivity.
  - intros w idx Hidx.
    destruct (lookup_lt_is_Some_2 _ _ Hidx) as [removed Hlookup].
    eexists. split; [|split].
    + unfold display_uploaded_documents, bind at 1, get_session. unfold bind at 1.
      rewrite (display_loop_delete idx removed) by (assumption || lia). reflexivity.
    + reflexivity.
    + reflexivity.
  - intros w Hdocs. eexists. split; [|split].
    + unfold display_uploaded_documents, bind at 1, get_session. unfold bind at 1.
      rewrite display_loop_idle
        by (intros idx; repeat split; apply st_button_other; discriminate).
      rewrite st_button_same. unfold bind, get_session, modify_session, rerun. simpl.
      rewrite bool_decide_eq_false_2 by assumption. reflexivity.
    + reflexivity.
    + reflexivity.
Qed.

Lemma doc_count_tracks_documents_witness :
  let w := World (add_uploaded_document (Demo.demo_doc "b.txt")
                    (add_uploaded_document (Demo.demo_doc "a.txt") fresh_session)) [] in
  (exists w',
     display_uploaded_documents (Some (BtnDelete 0%nat)) w = (Raise RerunException, w') /\
     uploaded_documents (session w') = delete 0%nat (uploaded_documents (session w)) /\
     doc_count (session w') = Z.of_nat (length (uploaded_documents (session w')))) /\
  (exists w',
     display_uploaded_documents (Some BtnClearAll) w = (Raise RerunException, w') /\
     uploaded_documents (session w') = [] /\
     doc_count (session w') = Z.of_nat (length (uploaded_documents (session w')))).
Proof.
  intros w. split.
  - apply (proj1 (proj2 doc_count_tracks_documents) w 0%nat). simpl. lia.
  - apply (proj2 (proj2 doc_count_tracks_documents) w). discriminate.
Defined.

(** The Clear All button of a page without documents changes nothing,
    and [render] does not even show the document list then. *)
Lemma clear_all_without_documents w :
  uploaded_documents (session w) = [] ->
  display_uploaded_documents (Some BtnClearAll) w = (Ok tt, w).
Proof.
  intros Hdocs.
  unfold display_uploaded_documents, bind at 1, get_session. unfold bind at 1.
  rewrite display_loop_idle
    by (intros idx; repeat split; apply st_button_other; discriminate).
  rewrite st_button_same. unfold bind, get_session. simpl.
  rewrite bool_decide_eq_true_2 by assumption. reflexivity.
Qed.

Lemma render_without_documents clicked w :
  fst (validate cfg) = true ->
  uploaded_documents (session w) = [] ->
  render cfg time_time [] clicked w
  = (Ok tt,
     World (session w)
           (page w ++ [StInfo "No documents uploaded yet. Upload files above to get started."])).
Proof.
  intros Hvalid Hdocs. unfold render.
  destruct (validate cfg) as [is_valid message]. simpl in Hvalid. subst is_valid.
  unfold bind, get_session, ret, emit. simpl.
  rewrite bool_decide_eq_true_2 by assumption. reflexivity.
Qed.

End DocumentListFacts.

(** ** Batch upload *)

Section BatchFacts.
Import Config SessionManager DocumentProcessor Home.
Context {libs : FormatLibraries}.
Variable cfg : config.
Variable time_time : nat -> Z.

(** The default window advances, so the chunker returns. *)
Lemma chunk_text_default text :
  chunk_text text default_chunk_size default_overlap
  = Some (windows text default_chunk_size default_overlap
                  (chunk_count text default_chunk_size default_overlap) 0).
Proof. apply chunk_text_windows. reflexivity. Qed.

Lemma dict_get_elem {V} (d : list (string * V)) key v :
  dict_get d key = Some v -> (key, v) ∈ d.
Proof.
  induction d as [|[k v'] d IH]; simpl; [discriminate|].
  destruct (String.eqb_spec k key) as [->|_].
  - intros [= ->]. apply list_elem_of_here.
  - intros H. apply list_elem_of_further. now apply IH.
Qed.

Lemma reraise_success {A} prefix (r : result A) a :
  reraise prefix r = Success a -> r = Success a.
Proof. destruct r; simpl; congruence. Qed.

Lemma and_then_success {A B} (r : result A) (k : A -> result B) b :
  and_then r k = Success b -> exists a, r = Success a /\ k a = Success b.
Proof. destruct r as [a|e]; simpl; [eauto | discriminate]. Qed.

(** Every handler puts [format] into the metadata it returns. *)
Lemma processors_set_format key processor file text_content metadata :
  (key, processor) ∈ processors ->
  processor file = Success (text_content, metadata) ->
  is_Some (metadata !! "format").
Proof.
  unfold processors. rewrite !elem_of_cons, elem_of_nil.
  intros [H|[H|[H|[H|[H|[]]]]]]; injection H as -> ->;
    unfold process_pdf, process_txt, process_docx, process_csv, process_json;
    intros Hrun; apply reraise_success in Hrun;
    repeat (apply and_then_success in Hrun as (? & _ & Hrun); cbv beta zeta in Hrun);
    simplify_eq; eexists; simplify_map_eq; reflexivity.
Qed.

Lemma add_common_metadata_format file ext metadata :
  add_common_metadata file ext metadata !! "format" = metadata !! "format".
Proof. unfold add_common_metadata. now simplify_map_eq. Qed.

Lemma add_all_documents docs : forall s,
  uploaded_documents (add_all docs s) = uploaded_documents s ++ docs.
Proof.
  unfold add_all. induction docs as [|doc docs IH]; intros s; simpl.
  - now rewrite app_nil_r.
  - rewrite IH. simpl. now rewrite <- app_assoc.
Qed.

Lemma add_all_count docs : forall s,
  doc_count s = Z.of_nat (length (uploaded_documents s)) ->
  doc_count (add_all docs s) = Z.of_nat (length (uploaded_documents (add_all docs s))).
Proof.
  unfold add_all. induction docs as [|doc docs IH]; intros s Hs; simpl; [assumption|].
  apply IH. reflexivity.
Qed.

(** One iteration: whatever the file ends as, the iteration returns, the
    counters move by one, exactly one message is shown, and the session
    gains the document of a processed file and nothing else. *)
Lemma process_one_outcome total_files successful failed idx file w :
  exists evs,
    process_one cfg time_time total_files (successful, failed) (idx, file) w
    = (Ok (if is_processed (outcome_of cfg time_time idx file)
           then (successful + 1, failed) else (successful, failed + 1)),
       World (add_all (processed_docs [outcome_of cfg time_time idx file]) (session w))
             (page w ++ evs)) /\
    List.filter is_report evs = [report_of file (outcome_of cfg time_time idx file)].
Proof.
  unfold process_one, outcome_of.
  destruct (validate_file file (MAX_FILE_SIZE_MB cfg)) as [is_valid error_msg].
  destruct is_valid; cbn [negb].
  - unfold process_file. cbv zeta.
    destruct (dict_get processors (file_extension_of (f_name file)))
      as [processor|] eqn:Hget.
    + destruct (processor file) as [[text_content metadata]|e] eqn:Hrun.
      * destruct (processors_set_format _ _ _ _ _ (dict_get_elem _ _ _ Hget) Hrun)
          as [format Hformat].
        eexists. split.
        -- unfold try_except, bind, emit, call, terminating, modify_session, ret.
           cbn [session page].
           rewrite chunk_text_default. cbn [session page].
           rewrite add_common_metadata_format, Hformat. cbn [session page default].
           rewrite windows_length. cbn [is_processed processed_docs add_all fold_left].
           rewrite <- !app_assoc. reflexivity.
        -- reflexivity.
      * eexists. split.
        -- unfold try_except, bind, emit, call, raise, ret.
           cbn [session page is_processed processed_docs add_all fold_left].
           rewrite <- !app_assoc. reflexivity.
        -- reflexivity.
    + eexists. split.
      * unfold try_except, bind, emit, raise, ret.
        cbn [session page is_processed processed_docs add_all fold_left].
        rewrite <- !app_assoc. reflexivity.
      * reflexivity.
  - eexists. split.
    + unfold try_except, bind, emit, ret.
      cbn [session page is_processed processed_docs add_all fold_left].
      rewrite <- !app_assoc. reflexivity.
    + reflexivity.
Qed.

Lemma enumerate_length {A} (l : list A) : forall start,
  length (enumerate start l) = length l.
Proof. induction l as [|x l IH]; intros start; simpl; [|rewrite IH]; reflexivity. Qed.

Lemma processed_docs_cons o outcomes :
  processed_docs (o :: outcomes) = processed_docs [o] ++ processed_docs outcomes.
Proof. destruct o; reflexivity. Qed.

Lemma add_all_app docs1 docs2 s :
  add_all (docs1 ++ docs2) s = add_all docs2 (add_all docs1 s).
Proof. unfold add_all. apply fold_left_app. Qed.

Lemma processed_docs_length outcomes :
  length (processed_docs outcomes) = length (List.filter is_processed outcomes).
Proof.
  induction outcomes as [|o outcomes IH]; [reflexivity|].
  destruct o; simpl; now rewrite ?IH.
Qed.

(** The outcome at a position is that of the file at that position. *)
Lemma outcomes_from_lookup files : forall start i,
  outcomes_from cfg time_time start files !! i
  = outcome_of cfg time_time (start + i) <$> files !! i.
Proof.
  induction files as [|file files IH]; intros start i; [reflexivity|].
  destruct i as [|i]; unfold outcomes_from in *; cbn [enumerate map fst snd].
  - simpl. now rewrite Nat.add_0_r.
  - simpl. rewrite IH. now rewrite Nat.add_succ_r.
Qed.

(** Every outcome is counted once, as a success or as a failure. *)
Lemma tally_covers_all outcomes :
  (length (processed_docs outcomes)
   + length (List.filter (fun o => negb (is_processed o)) outcomes))%nat
  = length outcomes.
Proof.
  induction outcomes as [|o outcomes IH]; [reflexivity|].
  destruct o; simpl; lia.
Qed.

(** The loop: every file is taken in input order and gets its own
    outcome, whatever the files before it ended as. *)
Lemma process_loop_outcomes total_files files : forall start successful failed w,
  exists evs,
    for_each (process_one cfg time_time total_files) (enumerate start files)
             (successful, failed) w
    = (Ok (successful
           + Z.of_nat (length (processed_docs (outcomes_from cfg time_time start files))),
           failed
           + Z.of_nat (length (List.filter (fun o => negb (is_processed o))
                                           (outcomes_from cfg time_time start files)))),
       World (add_all (processed_docs (outcomes_from cfg time_time start files)) (session w))
             (page w ++ evs)) /\
    List.filter is_report evs = reports_from cfg time_time start files.
Proof.
  induction files as [|file files IH]; intros start successful failed w.
  - exists []. split; [|reflexivity].
    cbn. unfold ret. rewrite !Z.add_0_r, app_nil_r. now destruct w.
  - cbn [enumerate for_each]. unfold bind at 1.
    destruct (process_one_outcome total_files successful failed start file w)
      as (evs1 & Hone & Hrep1).
    rewrite Hone. clear Hone.
    assert (outcomes_from cfg time_time start (file :: files)
            = outcome_of cfg time_time start file
              :: outcomes_from cfg time_time (S start) files) as -> by reflexivity.
    rewrite (processed_docs_cons (outcome_of cfg time_time start file)
                                 (outcomes_from cfg time_time (S start) files)),
      add_all_app.
    cbn [List.filter].
    destruct (is_processed (outcome_of cfg time_time start file)) eqn:Hp;
      match goal with
      | |- context [for_each _ _ (?a, ?b) ?w1] =>
          destruct (IH (S start) a b w1) as (evs2 & Hrest & Hrep2)
      end;
      exists (evs1 ++ evs2); (split; [|now rewrite List.filter_app, Hrep1, Hrep2]);
      rewrite Hrest; cbn [session page negb];
      rewrite <- app_assoc; do 3 f_equal;
      destruct (outcome_of cfg time_time start file); try discriminate;
      cbn [processed_docs app length]; lia.
Qed.

(** C5: [process_files] takes every file in input order; the outcome of
    a file is its own, whatever the other files end as; one message per
    file is shown, in input order; the final status reports the numbers
    of processed and of failed files, which add up to the number of
    files; and the documents of the processed files are appended to the
    session list, in input order. *)
Theorem process_files_isolates_failures uploaded_files w :
  let outcomes := outcomes_of cfg time_time uploaded_files in
  let docs := processed_docs outcomes in
  let successful := Z.of_nat (length docs) in
  let failed := Z.of_nat (length (List.filter (fun o => negb (is_processed o)) outcomes)) in
  exists evs,
    process_files cfg time_time uploaded_files w
    = (if 0 <? successful then Raise RerunException else Ok tt,
       World (add_all docs (session w)) (page w ++ evs)) /\
    List.filter is_report evs = reports_of cfg time_time uploaded_files /\
    StStatus ("Completed: " +:+ str_int successful +:+ " successful, "
              +:+ str_int failed +:+ " failed") ∈ evs /\
    successful + failed = Z.of_nat (length uploaded_files) /\
    length outcomes = length uploaded_files /\
    (forall i, outcomes !! i = outcome_of cfg time_time i <$> uploaded_files !! i) /\
    uploaded_documents (add_all docs (session w)) = uploaded_documents (session w) ++ docs /\
    doc_count (add_all docs (session w))
    = match docs with
      | [] => doc_count (session w)
      | _ => Z.of_nat (length (uploaded_documents (add_all docs (session w))))
      end.
Proof.
  intros outcomes docs successful failed.
  destruct (process_loop_outcomes (Z.of_nat (length uploaded_files)) uploaded_files
              0%nat 0 0 (World (session w) (page w ++ [StProgress 0 1])))
    as (evs & Hloop & Hrep).
  fold (outcomes_of cfg time_time uploaded_files) in Hloop. fold outcomes docs in Hloop.
  rewrite !Z.add_0_l in Hloop. fold successful failed in Hloop.
  cbn [session page] in Hloop.
  exists ([StProgress 0 1] ++ evs
          ++ [StStatus ("Completed: " +:+ str_int successful +:+ " successful, "
                        +:+ str_int failed +:+ " failed");
              StProgress 1 1]
          ++ (if 0 <? successful then [StBalloons; Sleep 2] else [])).
  split; [|split; [|split; [|split; [|split; [|split; [|split]]]]]].
  - unfold process_files, process_loop. unfold bind at 1, emit at 1.
    unfold bind at 1. rewrite Hloop.
    unfold bind, emit, rerun, ret. cbn [session page].
    destruct (0 <? successful); cbn [session page];
      rewrite <- ?app_assoc; reflexivity.
  - rewrite !List.filter_app, Hrep.
    destruct (0 <? successful); cbn; now rewrite app_nil_r.
  - rewrite !elem_of_app, elem_of_cons. right. right. left. now left.
  - pose proof (tally_covers_all outcomes) as Htally.
    unfold outcomes at 3, outcomes_of, outcomes_from in Htally.
    rewrite length_map, enumerate_length in Htally.
    unfold successful, failed, docs. lia.
  - unfold outcomes, outcomes_of, outcomes_from.
    now rewrite length_map, enumerate_length.
  - intros i. unfold outcomes, outcomes_of.
    rewrite outcomes_from_lookup. reflexivity.
  - apply add_all_documents.
  - destruct docs as [|doc docs']; [reflexivity|].
    unfold add_all. cbn [fold_left]. apply add_all_count. reflexivity.
Qed.

End BatchFacts.

Section BatchExample.
Import Config SessionManager DocumentProcessor Home.

(** Three files, the second of which cannot be decoded: two successes
    and one failure, reported in input order, and the two documents in
    the session. *)
Example batch_of_three :
  let run := process_files (libs := Demo.demo_libraries) Demo.demo_config
               (fun idx => Z.of_nat idx) Demo.demo_files Demo.empty_world in
  fst run = Raise RerunException /\
  map doc_filename (uploaded_documents (session (snd run))) = ["a.txt"; "c.txt"] /\
  doc_count (session (snd run)) = 2 /\
  List.filter is_report (page (snd run))
  = [StSuccess (check_mark +:+ " a.txt processed successfully!");
     StError (cross_mark
              +:+ " Error processing b.TXT: Error processing TXT: invalid start byte");
     StSuccess (check_mark +:+ " c.txt processed successfully!")] /\
  page (snd run) !! 13%nat = Some (StStatus "Completed: 2 successful, 1 failed").
Proof. repeat split; vm_compute; reflexivity. Qed.

End BatchExample.

(** * Further properties *)

(** ** The chunker: when it returns, what each chunk is, what the chunks cover *)

Section ChunkerCoverage.
Import DocumentProcessor.

Lemma str_take_drop_append n s : str_take n s +:+ str_drop n s = s.
Proof.
  revert s; induction n as [|n IH]; intros [|c s]; try reflexivity.
  change (String c (str_take n s +:+ str_drop n s) = String c s).
  f_equal. apply IH.
Qed.

Lemma get_str_drop n : forall s k, String.get k (str_drop n s) = String.get (n + k) s.
Proof.
  induction n as [|n IH]; intros s k; [reflexivity|].
  destruct s as [|c s]; simpl; [now destruct k | apply IH].
Qed.

Lemma get_str_take n : forall s k, (k < n)%nat -> String.get k (str_take n s) = String.get k s.
Proof.
  induction n as [|n IH]; intros s k Hk; [lia|].
  destruct s as [|c s]; simpl; [reflexivity|].
  destruct k as [|k]; [reflexivity|]. apply IH. lia.
Qed.

Lemma get_in_range s : forall k, (k < String.length s)%nat -> is_Some (String.get k s).
Proof.
  induction s as [|c s IH]; intros k Hk; simpl in *; [lia|].
  destruct k as [|k]; [eauto|]. apply IH. lia.
Qed.

(** X1: the loop of [chunk_text] never ends exactly when the text is not
    empty and [overlap >= chunk_size]; in every other case the call
    returns. *)
Theorem chunk_text_never_returns_iff text chunk_size overlap :
  (forall fuel, chunk_text_fuel fuel text chunk_size overlap = None)
  <-> text <> "" /\ chunk_size <= overlap.
Proof.
  split.
  - intros Hnone. split.
    + intros ->. specialize (Hnone 0%nat). discriminate.
    + destruct (Z.le_gt_cases chunk_size overlap) as [?|Hlt]; [assumption|].
      specialize (Hnone (String.length text)).
      rewrite chunk_text_fuel_windows in Hnone by lia. discriminate.
  - intros [Hne Hle] fuel. apply chunk_text_fuel_stuck; [lia | assumption].
Qed.

(** X2: for [chunk_size > 0] and [overlap < chunk_size], chunk [i] is
    the window of the text that starts at offset
    [i * (chunk_size - overlap)]: it is never empty, never longer than
    [chunk_size], and shorter only where the text ends. *)
Theorem chunk_is_window text chunk_size overlap chunks i c :
  0 < chunk_size -> overlap < chunk_size ->
  chunk_text text chunk_size overlap = Some chunks ->
  chunks !! i = Some c ->
  let offset := (i * Z.to_nat (chunk_size - overlap))%nat in
  c = str_take (Z.to_nat chunk_size) (str_drop offset text) /\
  (offset < String.length text)%nat /\
  String.length c = (Z.to_nat chunk_size `min` (String.length text - offset))%nat /\
  (0 < String.length c)%nat.
Proof.
  intros Hcs Hlt Hrun Hc offset.
  rewrite chunk_text_windows in Hrun by lia. injection Hrun as <-.
  pose proof (lookup_lt_Some _ _ _ Hc) as Hi. rewrite windows_length in Hi.
  rewrite windows_lookup in Hc by lia. injection Hc as <-.
  assert (Z.of_nat i < ceil_div (len text) (chunk_size - overlap)) as Hk
    by (unfold chunk_count in Hi; lia).
  apply lt_ceil_div in Hk; [|lia]. unfold len in Hk.
  assert (Z.of_nat offset = Z.of_nat i * (chunk_size - overlap)) as Hoff
    by (unfold offset; nia).
  rewrite slice_window by nia.
  replace (Z.to_nat (0 + Z.of_nat i * (chunk_size - overlap))) with offset by lia.
  replace (Z.to_nat (0 + Z.of_nat i * (chunk_size - overlap) + chunk_size
                     - (0 + Z.of_nat i * (chunk_size - overlap))))
    with (Z.to_nat chunk_size) by lia.
  rewrite length_str_take, length_str_drop.
  repeat split; lia.
Qed.

Lemma chunk_is_window_witness :
  "cdef" = str_take (Z.to_nat 4) (str_drop (1 * Z.to_nat (4 - 2)) "abcdefghij") /\
  (1 * Z.to_nat (4 - 2) < String.length "abcdefghij")%nat /\
  String.length "cdef"
  = (Z.to_nat 4 `min` (String.length "abcdefghij" - 1 * Z.to_nat (4 - 2)))%nat /\
  (0 < String.length "cdef")%nat.
Proof.
  apply (chunk_is_window "abcdefghij" 4 2 ["abcd"; "cdef"; "efgh"; "ghij"; "ij"] 1 "cdef");
    [lia | lia | reflexivity | reflexivity].
Defined.

(** X3: for [0 <= overlap < chunk_size], every character of the text is
    in a chunk: the character at offset [p] is in chunk
    [p / (chunk_size - overlap)], at offset [p mod (chunk_size - overlap)]. *)
Theorem chunks_cover_text text chunk_size overlap chunks p :
  0 <= overlap < chunk_size ->
  chunk_text text chunk_size overlap = Some chunks ->
  (p < String.length text)%nat ->
  let step := Z.to_nat (chunk_size - overlap) in
  exists c ch,
    chunks !! (p / step)%nat = Some c /\
    String.get (p mod step) c = Some ch /\
    String.get p text = Some ch.
Proof.
  intros Hov Hrun Hp step.
  assert (0 < step)%nat as Hstep by (unfold step; lia).
  pose proof (Nat.div_mod_eq p step) as Hdm.
  pose proof (Nat.mod_upper_bound p step ltac:(lia)) as Hmod.
  rewrite chunk_text_windows in Hrun by lia. injection Hrun as <-.
  assert (p / step < chunk_count text chunk_size overlap)%nat as Hi.
  { unfold chunk_count.
    assert (Z.of_nat (p / step) < ceil_div (len text) (chunk_size - overlap)); [|lia].
    apply lt_ceil_div; [lia|]. unfold len. nia. }
  destruct (get_in_range text p Hp) as [ch Hch].
  eexists _, ch. split; [apply windows_lookup; assumption|]. split; [|assumption].
  rewrite slice_window by nia.
  rewrite get_str_take by lia. rewrite get_str_drop. rewrite <- Hch. f_equal. nia.
Qed.

Lemma chunks_cover_text_witness :
  exists c ch,
    ["abcd"; "bcde"; "cde"; "de"; "e"] !! (4 / Z.to_nat (4 - 3))%nat = Some c /\
    String.get (4 mod Z.to_nat (4 - 3)) c = Some ch /\
    String.get 4 "abcde" = Some ch.
Proof.
  apply (chunks_cover_text "abcde" 4 3 ["abcd"; "bcde"; "cde"; "de"; "e"] 4%nat);
    [lia | reflexivity | simpl; lia].
Defined.

Lemma windows_reassemble text chunk_size overlap n : forall s,
  0 <= overlap < chunk_size -> 0 <= s ->
  iterations_from text chunk_size overlap s = n ->
  fold_right String.append ""
    (map (str_take (Z.to_nat (chunk_size - overlap)))
         (windows text chunk_size overlap n s))
  = str_drop (Z.to_nat s) text.
Proof.
  induction n as [|n IH]; intros s Hov Hs Hn; unfold iterations_from in Hn; simpl.
  - assert (len text - s <= 0) as Hle.
    { destruct (Z.le_gt_cases (len text - s) 0) as [?|Hpos]; [assumption|].
      pose proof (ceil_div_pos _ (chunk_size - overlap) ltac:(lia) Hpos). lia. }
    symmetry. apply str_drop_all. unfold len in Hle. lia.
  - rewrite IH; try lia.
    + rewrite slice_window by lia. rewrite str_take_take.
      replace (Z.to_nat (chunk_size - overlap) `min` Z.to_nat (s + chunk_size - s))%nat
        with (Z.to_nat (chunk_size - overlap)) by lia.
      replace (Z.to_nat (s + chunk_size - overlap))
        with (Z.to_nat s + Z.to_nat (chunk_size - overlap))%nat by lia.
      rewrite <- str_drop_drop. apply str_take_drop_append.
    + unfold iterations_from.
      replace (len text - (s + chunk_size - overlap))
        with (len text - s - (chunk_size - overlap)) by lia.
      rewrite ceil_div_step by lia. lia.
Qed.

(** X4: for [0 <= overlap < chunk_size], the text is recovered from its
    chunks: the first [chunk_size - overlap] characters of every chunk,
    concatenated in order, are the text. *)
Theorem chunks_reassemble text chunk_size overlap chunks :
  0 <= overlap < chunk_size ->
  chunk_text text chunk_size overlap = Some chunks ->
  fold_right String.append ""
    (map (str_take (Z.to_nat (chunk_size - overlap))) chunks)
  = text.
Proof.
  intros Hov Hrun. rewrite chunk_text_windows in Hrun by lia. injection Hrun as <-.
  rewrite windows_reassemble; try lia; [reflexivity|].
  unfold iterations_from, chunk_count. now rewrite Z.sub_0_r.
Qed.

Lemma chunks_reassemble_witness :
  fold_right String.append ""
    (map (str_take (Z.to_nat (4 - 3))) ["abcd"; "bcde"; "cde"; "de"; "e"])
  = "abcde".
Proof.
  apply (chunks_reassemble "abcde" 4 3 ["abcd"; "bcde"; "cde"; "de"; "e"]);
    [lia | reflexivity].
Defined.

(** X5: for [overlap >= 0], a non-empty text of at most
    [chunk_size - overlap] characters is returned as a single chunk, the
    text itself. *)
Theorem short_text_is_one_chunk text chunk_size overlap :
  0 <= overlap -> 0 < len text <= chunk_size - overlap ->
  chunk_text text chunk_size overlap = Some [text].
Proof.
  intros Hov Hlen. rewrite chunk_text_windows by lia.
  unfold chunk_count.
  rewrite (ceil_div_unique (len text) (chunk_size - overlap) 1) by lia.
  simpl. rewrite slice_window by lia. f_equal. f_equal.
  simpl. apply str_take_all. unfold len in Hlen. lia.
Qed.

Lemma short_text_is_one_chunk_witness :
  chunk_text "hello world" default_chunk_size default_overlap = Some ["hello world"].
Proof.
  apply (short_text_is_one_chunk "hello world" default_chunk_size default_overlap);
    [unfold default_overlap; lia | vm_compute; split; [reflexivity | discriminate]].
Defined.

End ChunkerCoverage.

(** ** Validation, extensions and configuration *)

Section ValidationFacts.
Import Config DocumentProcessor Traces.

Lemma append_eq_empty s t : s +:+ t = "" -> s = "".
Proof. destruct s as [|c s]; [reflexivity|]. intros H. inversion H. Qed.

(** X6: [validate_file] accepts a file, with an empty message, exactly
    when its size is at most [max_size_mb * 1024 * 1024] bytes and its
    extension is one of the five supported ones; a rejected file always
    comes with a non-empty message. *)
Theorem validate_file_accepts_iff uploaded_file max_size_mb :
  (validate_file uploaded_file max_size_mb = (true, "")
   <-> f_size uploaded_file <= max_size_mb * 1024 * 1024 /\
       file_extension_of (f_name uploaded_file) ∈ ["pdf"; "txt"; "docx"; "csv"; "json"]) /\
  (fst (validate_file uploaded_file max_size_mb) = true
   <-> snd (validate_file uploaded_file max_size_mb) = "").
Proof.
  unfold validate_file. rewrite Z.gtb_ltb.
  destruct (Z.ltb_spec (max_size_mb * 1024 * 1024) (f_size uploaded_file)) as [Hbig|Hok].
  - split; (split; [simpl; intros H; try discriminate|]).
    + intros [? _]. lia.
    + intros H. apply append_eq_empty in H. discriminate.
  - cbv zeta. case_bool_decide as Hext; cbn [negb].
    + split; split; auto.
    + split; (split; [simpl; intros H; try discriminate|]).
      * intros [_ ?]. contradiction.
      * intros H. apply append_eq_empty in H. discriminate.
Qed.

Lemma split_no_sep sep s : contains sep s = false -> split sep s = [s].
Proof.
  induction s as [|c s IH]; simpl; [reflexivity|].
  destruct (Ascii.eqb c sep); simpl; [discriminate|].
  intros H. now rewrite IH.
Qed.

Lemma split_app_sep sep s :
  split sep (s +:+ String sep EmptyString) = split sep s ++ [EmptyString].
Proof.
  induction s as [|c s IH].
  - simpl. now rewrite Ascii.eqb_refl.
  - change (String c s +:+ String sep "") with (String c (s +:+ String sep "")).
    cbn [split]. rewrite IH.
    destruct (Ascii.eqb c sep); [reflexivity|].
    pose proof (split_nonempty sep s).
    destruct (split sep s); [congruence | reflexivity].
Qed.

Lemma split_pieces_no_sep sep s : Forall (fun piece => contains sep piece = false) (split sep s).
Proof.
  induction s as [|c s IH]; simpl.
  - constructor; [reflexivity | constructor].
  - destruct (Ascii.eqb c sep) eqn:Hc.
    + constructor; [reflexivity | assumption].
    + destruct (split sep s) as [|piece rest]; [repeat constructor; simpl; now rewrite Hc|].
      inversion IH as [|? ? Hpiece Hrest]; subst.
      constructor; [simpl; now rewrite Hc | assumption].
Qed.

Lemma contains_dot_lower s : contains "." (lower s) = contains "." s.
Proof.
  induction s as [|c s IH]; simpl; [reflexivity|]. now rewrite lower_ascii_dot, IH.
Qed.

(** X7: a name without a dot is, in lower case, its own extension, and
    a name that ends in a dot has the empty extension. *)
Theorem file_extension_of_edges name :
  (contains "." name = false -> file_extension_of name = lower name) /\
  file_extension_of (name +:+ ".") = "".
Proof.
  unfold file_extension_of. split.
  - intros Hno. now rewrite split_no_sep.
  - rewrite split_app_sep, last_last. reflexivity.
Qed.

Lemma file_extension_of_edges_witness :
  file_extension_of "PDF" = "pdf" /\ file_extension_of "archive.tar." = "".
Proof.
  split.
  - apply (proj1 (file_extension_of_edges "PDF")). reflexivity.
  - apply (proj2 (file_extension_of_edges "archive.tar")).
Defined.

(** X8: the extension of a name never contains a dot and never changes
    under [lower()]. *)
Theorem file_extension_of_shape name :
  contains "." (file_extension_of name) = false /\
  lower (file_extension_of name) = file_extension_of name.
Proof.
  unfold file_extension_of. split; [|apply lower_idem].
  rewrite contains_dot_lower.
  pose proof (split_pieces_no_sep "." name) as Hall.
  induction (split "." name) as [|piece rest IH]; [reflexivity|].
  inversion Hall as [|? ? Hpiece Hrest]; subst.
  destruct rest as [|piece' rest]; [assumption | now apply IH].
Qed.

(** X9: [Config.validate] succeeds, with the message
    [Configuration valid], exactly when the access key, the secret key
    and the index id are all non-empty. *)
Theorem config_validate_iff cfg :
  validate cfg = (true, "Configuration valid")
  <-> AWS_ACCESS_KEY_ID cfg <> "" /\ AWS_SECRET_ACCESS_KEY cfg <> "" /\ KENDRA_INDEX_ID cfg <> "".
Proof.
  unfold validate. cbn [List.filter map fst snd].
  destruct (String.eqb_spec (AWS_ACCESS_KEY_ID cfg) "") as [Ha|Ha];
    destruct (String.eqb_spec (AWS_SECRET_ACCESS_KEY cfg) "") as [Hs|Hs];
    destruct (String.eqb_spec (KENDRA_INDEX_ID cfg) "") as [Hi|Hi];
    cbn [map fst]; (case_bool_decide as Hmissing; [|try discriminate Hmissing]);
    cbn [negb]; split; try discriminate; try tauto; try congruence.
Qed.

End ValidationFacts.

(** ** Extraction *)

Section ExtractionFacts.
Import Config DocumentProcessor Batch Causes.
Context {libs : FormatLibraries}.

Lemma reraise_failure {A} prefix (r : result A) e :
  reraise prefix r = Failure e ->
  exists cause, r = Failure cause /\ e = Exception (prefix +:+ str_exc cause).
Proof. destruct r as [a|cause]; simpl; [discriminate|]. intros [= <-]. eauto. Qed.

(** Each handler wraps what its library raises under its own prefix. *)
Lemma processors_wrap_failure key processor file e :
  (key, processor) ∈ processors ->
  processor file = Failure e ->
  exists format message,
    (key, format) ∈ format_names /\
    e = Exception ("Error processing " +:+ format +:+ ": " +:+ message).
Proof.
  unfold processors, format_names. rewrite !elem_of_cons, elem_of_nil.
  intros [H|[H|[H|[H|[H|[]]]]]]; injection H as -> ->;
    unfold process_pdf, process_txt, process_docx, process_csv, process_json;
    intros Hrun; apply reraise_failure in Hrun as (cause & _ & ->);
    [exists "PDF" | exists "TXT" | exists "DOCX" | exists "CSV" | exists "JSON"];
    exists (str_exc cause); (split; [|reflexivity]);
    rewrite !elem_of_cons; tauto.
Qed.

(** What the handlers put into the metadata: [format], and none of the
    three keys that [process_file] adds. *)
Lemma processors_metadata key processor file text_content metadata :
  (key, processor) ∈ processors ->
  processor file = Success (text_content, metadata) ->
  (exists format, (key, format) ∈ format_names /\ metadata !! "format" = Some (PyStr format)) /\
  metadata !! "filename" = None /\
  metadata !! "file_size" = None /\
  metadata !! "file_type" = None.
Proof.
  unfold processors, format_names. rewrite !elem_of_cons, elem_of_nil.
  intros [H|[H|[H|[H|[H|[]]]]]]; injection H as -> ->;
    unfold process_pdf, process_txt, process_docx, process_csv, process_json;
    intros Hrun; apply reraise_success in Hrun;
    repeat (apply and_then_success in Hrun as (? & _ & Hrun); cbv beta zeta in Hrun);
    simplify_eq;
    (split; [eexists; split; [|simplify_map_eq; reflexivity]; rewrite !elem_of_cons; tauto|]);
    repeat split; simplify_map_eq; reflexivity.
Qed.

Lemma and_then_failure {A B} (r : result A) (k : A -> result B) e :
  and_then r k = Failure e ->
  r = Failure e \/ exists a, r = Success a /\ k a = Failure e.
Proof. destruct r as [a|e']; simpl; [eauto | intros [= ->]; now left]. Qed.

(** The exception of [collect] is that of the first call that failed. *)
Lemma collect_pages_failure e (pages : list (result string)) : forall start,
  collect (map (fun numbered : nat * result string =>
                  let '(page_num, page) := numbered in
                  and_then page (fun text =>
                    Success ("[Page " +:+ str_int (Z.of_nat page_num) +:+ "]"
                             +:+ nl +:+ text)))
               (enumerate start pages))
  = Failure e ->
  exists before after, pages = map Success before ++ Failure e :: after.
Proof.
  induction pages as [|page pages IH]; intros start Hfail; [discriminate|].
  cbn [enumerate map collect] in Hfail.
  destruct page as [text|cause]; cbn [and_then] in Hfail.
  - apply and_then_failure in Hfail as [Hrest|(rest & _ & Hrest)]; [|discriminate].
    destruct (IH _ Hrest) as (before & after & ->).
    now exists (text :: before), after.
  - injection Hfail as ->. now exists [], pages.
Qed.

(** Each handler raises the exception of its library under its own
    prefix. *)
Lemma processors_wrap_cause key processor file e :
  (key, processor) ∈ processors ->
  processor file = Failure e ->
  exists format cause,
    (key, format) ∈ format_names /\
    library_raises key file cause /\
    e = Exception ("Error processing " +:+ format +:+ ": " +:+ str_exc cause).
Proof.
  unfold processors, format_names, library_raises.
  rewrite !elem_of_cons, elem_of_nil.
  intros [H|[H|[H|[H|[H|[]]]]]]; injection H as -> ->;
    unfold process_pdf, process_txt, process_docx, process_csv, process_json;
    intros Hrun; apply reraise_failure in Hrun as (cause & Hcause & ->);
    [exists "PDF" | exists "TXT" | exists "DOCX" | exists "CSV" | exists "JSON"];
    exists cause; (split; [rewrite !elem_of_cons; tauto|]); (split; [|reflexivity]).
  - left. split; [reflexivity|].
    apply and_then_failure in Hcause as [Hopen|(pages & Hopen & Hpages)]; [now left|].
    right. cbv zeta in Hpages.
    apply and_then_failure in Hpages as [Hcollect|(texts & _ & Hlast)]; [|discriminate].
    apply collect_pages_failure in Hcollect as (before & after & ->). eauto.
  - right. left. split; [reflexivity|].
    apply and_then_failure in Hcause as [?|(x & _ & ?)]; [assumption | discriminate].
  - right. right. left. split; [reflexivity|].
    apply and_then_failure in Hcause as [?|(x & _ & ?)]; [assumption | discriminate].
  - right. right. right. left. split; [reflexivity|].
    apply and_then_failure in Hcause as [?|(x & _ & ?)]; [assumption | discriminate].
  - right. right. right. right. split; [reflexivity|].
    apply and_then_failure in Hcause as [?|(x & _ & ?)]; [assumption | discriminate].
Qed.

Lemma dict_get_processors_none ext :
  dict_get processors ext = None -> ext ∉ ["pdf"; "txt"; "docx"; "csv"; "json"].
Proof.
  intros Hnone Hin. rewrite !elem_of_cons, elem_of_nil in Hin.
  destruct Hin as [->|[->|[->|[->|[->|[]]]]]]; discriminate Hnone.
Qed.

(** X10: [process_file] always returns or raises and never touches the
    session.  It raises only two kinds of exception: for an extension
    that is none of the five, the [ValueError] whose message is
    [Unsupported file type: ] and the extension (for an ASCII name, the
    lower-cased text after the last dot); or, when the library of the
    extension raised, an [Exception] whose message is
    [Error processing <FORMAT>: ] followed by the message of what the
    library raised. *)
Theorem process_file_exceptions uploaded_file w :
  let ext := file_extension_of (f_name uploaded_file) in
  session (snd (process_file uploaded_file w)) = session w /\
  ((exists text_content metadata,
      fst (process_file uploaded_file w) = Ok (text_content, metadata)) \/
   ((ext ∉ ["pdf"; "txt"; "docx"; "csv"; "json"]) /\
    (exists shown,
       fst (process_file uploaded_file w)
       = Raise (Exc (ValueError ("Unsupported file type: " +:+ shown))) /\
       (is_ascii (f_name uploaded_file) = true -> shown = ext))) \/
   (exists format cause,
      (ext, format) ∈ format_names /\
      library_raises ext uploaded_file cause /\
      fst (process_file uploaded_file w)
      = Raise (Exc (Exception ("Error processing " +:+ format +:+ ": "
                               +:+ str_exc cause))))).
Proof.
  intros ext. unfold process_file. cbv zeta. fold ext.
  destruct (dict_get processors ext) as [processor|] eqn:Hget.
  - apply dict_get_elem in Hget.
    unfold bind, emit, call, ret, raise. cbn [session page].
    destruct (processor uploaded_file) as [[text_content metadata]|e] eqn:Hrun.
    + split; [reflexivity|]. left. eauto.
    + split; [reflexivity|]. right. right.
      destruct (processors_wrap_cause _ _ _ _ Hget Hrun)
        as (format & cause & Hf & Hcause & ->).
      eauto.
  - split; [reflexivity|]. right. left.
    split; [now apply dict_get_processors_none|].
    exists ext. split; [reflexivity | auto].
Qed.

(** X11: the metadata [process_file] returns holds the name, the size
    and the lower-cased extension of the file under [filename],
    [file_size] and [file_type], the upper-case format name under
    [format], and every entry the handler produced, unchanged. *)
Theorem process_file_metadata uploaded_file w text_content metadata :
  fst (process_file uploaded_file w) = Ok (text_content, metadata) ->
  let ext := file_extension_of (f_name uploaded_file) in
  metadata !! "filename" = Some (PyStr (f_name uploaded_file)) /\
  metadata !! "file_size" = Some (PyInt (f_size uploaded_file)) /\
  metadata !! "file_type" = Some (PyStr ext) /\
  (exists format, (ext, format) ∈ format_names /\ metadata !! "format" = Some (PyStr format)) /\
  (exists processor handler_metadata,
     (ext, processor) ∈ processors /\
     processor uploaded_file = Success (text_content, handler_metadata) /\
     forall key value, handler_metadata !! key = Some value -> metadata !! key = Some value).
Proof.
  intros Hok ext. unfold process_file in Hok. cbv zeta in Hok. fold ext in Hok.
  destruct (dict_get processors ext) as [processor|] eqn:Hget; [|discriminate].
  apply dict_get_elem in Hget.
  unfold bind, emit, call, ret, raise in Hok. cbn [session page] in Hok.
  destruct (processor uploaded_file) as [[text handler_metadata]|e] eqn:Hrun;
    [|discriminate].
  cbn [fst] in Hok. injection Hok as -> <-.
  destruct (processors_metadata _ _ _ _ _ Hget Hrun)
    as ((format & Hformat & Hlookup) & Hname & Hsize & Htype).
  unfold add_common_metadata.
  split; [now simplify_map_eq|]. split; [now simplify_map_eq|].
  split; [now simplify_map_eq|]. split.
  - exists format. split; [assumption|]. now simplify_map_eq.
  - exists processor, handler_metadata. split; [assumption|]. split; [exact Hrun|].
    intros key value Hkey.
    rewrite !lookup_insert_ne by (intros <-; congruence). assumption.
Qed.

(** X12: a file that [validate_file] accepts has a handler:
    [process_file] enters it, once, and does not raise the
    unsupported-type error. *)
Theorem validated_file_has_handler uploaded_file max_size_mb w :
  fst (validate_file uploaded_file max_size_mb) = true ->
  let ext := file_extension_of (f_name uploaded_file) in
  page (snd (process_file uploaded_file w)) = page w ++ [HandlerCall ext] /\
  fst (process_file uploaded_file w)
  <> Raise (Exc (ValueError ("Unsupported file type: " +:+ ext))).
Proof.
  intros Hvalid ext. unfold validate_file in Hvalid.
  destruct (f_size uploaded_file >? max_size_mb * 1024 * 1024); [discriminate|].
  cbv zeta in Hvalid. fold ext in Hvalid.
  case_bool_decide as Hext; [|discriminate]. clear Hvalid.
  unfold process_file. cbv zeta. fold ext. clearbody ext.
  rewrite !elem_of_cons, elem_of_nil in Hext.
  assert (exists processor, dict_get processors ext = Some processor) as [processor Hget].
  { destruct Hext as [->|[->|[->|[->|[->|[]]]]]]; eexists; reflexivity. }
  rewrite Hget. apply dict_get_elem in Hget.
  unfold bind, emit, call, ret, raise. cbn [session page].
  destruct (processor uploaded_file) as [[text_content metadata]|e] eqn:Hrun;
    (split; [reflexivity|]); cbn [fst]; [discriminate|].
  destruct (processors_wrap_failure _ _ _ _ Hget Hrun) as (format & message & _ & ->).
  discriminate.
Qed.

Lemma collect_all_success {A} (l : list A) : collect (map Success l) = Success l.
Proof. induction l as [|x l IH]; simpl; [|rewrite IH]; reflexivity. Qed.

Lemma collect_first_failure {A} (before : list A) e after :
  collect (map Success before ++ Failure e :: after) = Failure e.
Proof. induction before as [|x before IH]; simpl; [|rewrite IH]; reflexivity. Qed.

Lemma enumerate_map {A B} (f : A -> B) (l : list A) : forall start,
  enumerate start (map f l) = map (fun item => (fst item, f (snd item))) (enumerate start l).
Proof. induction l as [|x l IH]; intros start; simpl; [|rewrite IH]; reflexivity. Qed.

Lemma enumerate_app {A} (l1 l2 : list A) : forall start,
  enumerate start (l1 ++ l2) = enumerate start l1 ++ enumerate (start + length l1) l2.
Proof.
  induction l1 as [|x l1 IH]; intros start; simpl.
  - now rewrite Nat.add_0_r.
  - rewrite IH. now rewrite Nat.add_succ_r.
Qed.

(** X13: when every page of a PDF can be read, [process_pdf] returns
    the page texts in order, each under a [[Page n]] line numbered from
    1 and separated by blank lines, with the page count in the metadata;
    when a page cannot be read, nothing of the other pages is returned:
    the call raises with the message of the first such page. *)
Theorem process_pdf_pages file :
  (forall texts,
     PdfReader file = Success (map Success texts) ->
     process_pdf file
     = Success (join (nl +:+ nl)
                     (map (fun item : nat * string =>
                             "[Page " +:+ str_int (Z.of_nat (fst item)) +:+ "]"
                             +:+ nl +:+ snd item)
                          (enumerate 1 texts)),
                <["format" := PyStr "PDF"]>
                  (<["pages" := PyInt (Z.of_nat (length texts))]> ∅))) /\
  (forall before e after,
     PdfReader file = Success (map Success before ++ Failure e :: after) ->
     process_pdf file = Failure (Exception ("Error processing PDF: " +:+ str_exc e))).
Proof.
  split.
  - intros texts Hread. unfold process_pdf. rewrite Hread. cbn [and_then].
    rewrite enumerate_map, map_map.
    rewrite (map_ext _ (fun item : nat * string =>
                          Success ("[Page " +:+ str_int (Z.of_nat (fst item)) +:+ "]"
                                   +:+ nl +:+ snd item)))
      by (intros [n t]; reflexivity).
    rewrite <- (map_map _ Success), collect_all_success. cbn [and_then reraise].
    now rewrite length_map.
  - intros before e after Hread. unfold process_pdf. rewrite Hread. cbn [and_then].
    rewrite enumerate_app, map_app, enumerate_map, map_map. cbn [enumerate map].
    rewrite (map_ext _ (fun item : nat * string =>
                          Success ("[Page " +:+ str_int (Z.of_nat (fst item)) +:+ "]"
                                   +:+ nl +:+ snd item)))
      by (intros [n t]; reflexivity).
    rewrite <- (map_map _ Success).
    cbn [and_then]. rewrite collect_first_failure. reflexivity.
Qed.

End ExtractionFacts.

Section ExtractionWitnesses.
Import Config DocumentProcessor Batch Causes.

Lemma process_file_exceptions_witness :
  let file := UploadedFile "notes.XYZ" 10 "" in
  session (snd (process_file (libs := pdf_libraries) file Demo.empty_world))
  = session Demo.empty_world /\
  fst (process_file (libs := pdf_libraries) file Demo.empty_world)
  = Raise (Exc (ValueError "Unsupported file type: xyz")).
Proof.
  intros file.
  destruct (process_file_exceptions (libs := pdf_libraries) file Demo.empty_world)
    as [Hsession [(text_content & metadata & Hok)
                 |[(_ & shown & Hraise & Hshown)|(format & cause & _ & _ & Hraise)]]].
  - discriminate Hok.
  - split; [exact Hsession|]. rewrite Hraise, (Hshown eq_refl). reflexivity.
  - discriminate Hraise.
Defined.

Lemma process_file_metadata_witness :
  let file := UploadedFile "Notes.TXT" 3 "abc" in
  let metadata := add_common_metadata file "txt"
                    (<["size" := PyInt 3]> (<["format" := PyStr "TXT"]> ∅)) in
  metadata !! "filename" = Some (PyStr "Notes.TXT") /\
  metadata !! "file_size" = Some (PyInt 3) /\
  metadata !! "file_type" = Some (PyStr "txt") /\
  (exists format, ("txt", format) ∈ format_names /\ metadata !! "format" = Some (PyStr format)) /\
  (exists processor handler_metadata,
     ("txt", processor) ∈ processors (libs := pdf_libraries) /\
     processor file = Success ("abc", handler_metadata) /\
     forall key value, handler_metadata !! key = Some value -> metadata !! key = Some value).
Proof.
  intros file metadata.
  apply (process_file_metadata (libs := pdf_libraries) file Demo.empty_world "abc" metadata).
  reflexivity.
Defined.

Lemma validated_file_has_handler_witness :
  let file := UploadedFile "Notes.TXT" 3 "abc" in
  page (snd (process_file (libs := pdf_libraries) file Demo.empty_world))
  = page Demo.empty_world ++ [HandlerCall "txt"] /\
  fst (process_file (libs := pdf_libraries) file Demo.empty_world)
  <> Raise (Exc (ValueError ("Unsupported file type: " +:+ "txt"))).
Proof.
  intros file.
  apply (validated_file_has_handler (libs := pdf_libraries) file 10 Demo.empty_world).
  reflexivity.
Defined.

Lemma process_pdf_pages_witness :
  process_pdf (libs := pdf_libraries) (UploadedFile "a.pdf" 9 "%PDF")
  = Success ("[Page 1]" +:+ nl +:+ "one" +:+ nl +:+ nl +:+ "[Page 2]" +:+ nl +:+ "two",
             <["format" := PyStr "PDF"]> (<["pages" := PyInt 2]> ∅)) /\
  process_pdf (libs := pdf_libraries) (UploadedFile "b.pdf" 1 "?")
  = Failure (Exception "Error processing PDF: bad page").
Proof.
  split.
  - apply (proj1 (process_pdf_pages (libs := pdf_libraries) (UploadedFile "a.pdf" 9 "%PDF"))
                 ["one"; "two"]).
    reflexivity.
  - apply (proj2 (process_pdf_pages (libs := pdf_libraries) (UploadedFile "b.pdf" 1 "?"))
                 ["one"] (LibraryError "PdfReadError" "bad page") [Success "three"]).
    reflexivity.
Defined.

End ExtractionWitnesses.

(** ** The page and the session after a batch *)

Section BatchTrace.
Import Config SessionManager DocumentProcessor Home Batch.
Context {libs : FormatLibraries}.
Variable cfg : config.
Variable time_time : nat -> Z.

Lemma validated_extension_has_processor file max_size_mb :
  fst (validate_file file max_size_mb) = true ->
  is_Some (dict_get processors (file_extension_of (f_name file))).
Proof.
  unfold validate_file.
  destruct (f_size file >? max_size_mb * 1024 * 1024); [discriminate|]. cbv zeta.
  case_bool_decide as Hext; [|discriminate]. intros _.
  rewrite !elem_of_cons, elem_of_nil in Hext.
  destruct Hext as [->|[->|[->|[->|[->|[]]]]]]; eexists; reflexivity.
Qed.

(** One iteration, with everything it puts on the page. *)
Lemma process_one_events total_files successful failed idx file w :
  process_one cfg time_time total_files (successful, failed) (idx, file) w
  = (Ok (if is_processed (outcome_of cfg time_time idx file)
         then (successful + 1, failed) else (successful, failed + 1)),
     World (add_all (processed_docs [outcome_of cfg time_time idx file]) (session w))
           (page w ++ file_events cfg time_time total_files (idx, file))).
Proof.
  pose proof (validated_extension_has_processor file (MAX_FILE_SIZE_MB cfg)) as Hhas.
  unfold process_one, file_events. unfold outcome_of.
  destruct (validate_file file (MAX_FILE_SIZE_MB cfg)) as [is_valid error_msg].
  destruct is_valid; cbn [negb fst].
  - unfold process_file. cbv zeta.
    destruct (Hhas eq_refl) as [processor Hget]. rewrite Hget.
    destruct (processor file) as [[text_content metadata]|e] eqn:Hrun.
    + destruct (processors_set_format _ _ _ _ _ (dict_get_elem _ _ _ Hget) Hrun)
        as [format Hformat].
      unfold try_except, bind, emit, call, terminating, modify_session, ret.
      cbn [session page].
      rewrite chunk_text_default. cbn [session page].
      rewrite add_common_metadata_format, Hformat. cbn [session page default].
      rewrite windows_length. cbn [is_processed processed_docs add_all fold_left report_of].
      rewrite <- !app_assoc. reflexivity.
    + unfold try_except, bind, emit, call, raise, ret.
      cbn [session page is_processed processed_docs add_all fold_left report_of].
      rewrite <- !app_assoc. reflexivity.
  - unfold try_except, bind, emit, ret.
    cbn [session page is_processed processed_docs add_all fold_left report_of].
    rewrite <- !app_assoc. reflexivity.
Qed.

Lemma process_loop_events total_files files : forall start successful failed w,
  for_each (process_one cfg time_time total_files) (enumerate start files)
           (successful, failed) w
  = (Ok (successful
         + Z.of_nat (length (processed_docs (outcomes_from cfg time_time start files))),
         failed
         + Z.of_nat (length (List.filter (fun o => negb (is_processed o))
                                         (outcomes_from cfg time_time start files)))),
     World (add_all (processed_docs (outcomes_from cfg time_time start files)) (session w))
           (page w ++ concat (map (file_events cfg time_time total_files)
                                  (enumerate start files)))).
Proof.
  induction files as [|file files IH]; intros start successful failed w.
  - cbn. unfold ret. rewrite !Z.add_0_r, app_nil_r. now destruct w.
  - cbn [enumerate for_each map concat]. unfold bind at 1.
    rewrite process_one_events.
    assert (outcomes_from cfg time_time start (file :: files)
            = outcome_of cfg time_time start file
              :: outcomes_from cfg time_time (S start) files) as -> by reflexivity.
    rewrite (processed_docs_cons (outcome_of cfg time_time start file)
                                 (outcomes_from cfg time_time (S start) files)),
      add_all_app.
    cbn [List.filter].
    destruct (is_processed (outcome_of cfg time_time start file)) eqn:Hp;
      rewrite IH; cbn [session page negb];
      rewrite <- app_assoc; do 3 f_equal;
      destruct (outcome_of cfg time_time start file); try discriminate;
      cbn [processed_docs app length]; lia.
Qed.

(** The whole of [process_files]: result, session and page. *)
Lemma process_files_trace files w :
  process_files cfg time_time files w
  = (if 0 <? Z.of_nat (length (processed_docs (outcomes_of cfg time_time files)))
     then Raise RerunException else Ok tt,
     World (add_all (processed_docs (outcomes_of cfg time_time files)) (session w))
           (page w ++ batch_events cfg time_time files)).
Proof.
  unfold process_files, process_loop, batch_events. unfold bind at 1, emit at 1.
  unfold bind at 1. rewrite process_loop_events.
  fold (outcomes_of cfg time_time files). rewrite !Z.add_0_l.
  unfold bind, emit, rerun, ret. cbn [session page].
  destruct (0 <? Z.of_nat (length (processed_docs (outcomes_of cfg time_time files))));
    cbn [session page]; rewrite <- ?app_assoc; cbn [app]; rewrite ?app_nil_r;
    reflexivity.
Qed.

(** X14: what [process_files] shows.  For each file, in input order:
    the progress [(idx + 1) / total], the status [Processing <name>...],
    a parser call only if the file passed [validate_file], and exactly
    one outcome message; then the final status with the two counts and
    full progress; balloons and the two-second pause only if a file
    succeeded. *)
Theorem process_files_page files w :
  page (snd (process_files cfg time_time files w))
  = page w ++ batch_events cfg time_time files.
Proof. now rewrite process_files_trace. Qed.

(** X15: when no file of the batch is processed, [process_files]
    returns normally and leaves the session as it was; when at least one
    is, it ends in [st.rerun()]. *)
Theorem process_files_rerun_iff files w :
  (fst (process_files cfg time_time files w) = Ok tt
   <-> processed_docs (outcomes_of cfg time_time files) = []) /\
  (fst (process_files cfg time_time files w) = Raise RerunException
   <-> processed_docs (outcomes_of cfg time_time files) <> []) /\
  (fst (process_files cfg time_time files w) = Raise RerunException \/
   session (snd (process_files cfg time_time files w)) = session w).
Proof.
  rewrite process_files_trace. cbn [fst snd session].
  destruct (processed_docs (outcomes_of cfg time_time files)) as [|doc docs] eqn:Hd;
    cbn [length Z.of_nat Z.ltb Z.compare].
  - repeat split; try discriminate; try congruence. now right.
  - repeat split; try discriminate; try congruence. now left.
Qed.

Lemma processed_docs_elem doc outcomes :
  doc ∈ processed_docs outcomes <-> Processed doc ∈ outcomes.
Proof.
  induction outcomes as [|o outcomes IH]; simpl.
  - split; intros H; inversion H.
  - destruct o; rewrite ?elem_of_cons, IH; split; intros H;
      try (destruct H as [H|H]; [discriminate H || (injection H as ->; now left)|]);
      try (destruct H as [->|H]; [now left|]);
      auto; try (right; assumption).
Qed.

(** X16: every document that [process_files] adds to the session comes
    from a file of the batch that passed validation and extraction: it
    carries the name and the size of that file, the text and the
    metadata that [process_file] returned for it, the upper-case format
    name as its type, and [ceil(len(content) / 800)] as its number of
    chunks. *)
Theorem process_files_documents files w doc :
  doc ∈ uploaded_documents (session (snd (process_files cfg time_time files w))) ->
  doc ∈ uploaded_documents (session w) \/
  exists idx file,
    files !! idx = Some file /\
    fst (validate_file file (MAX_FILE_SIZE_MB cfg)) = true /\
    fst (process_file file w) = Ok (doc_content doc, doc_metadata doc) /\
    doc_filename doc = f_name file /\
    doc_size doc = f_size file /\
    (exists format,
       (file_extension_of (f_name file), format) ∈ format_names /\
       doc_type doc = PyStr format) /\
    doc_chunks doc = ceil_div (len (doc_content doc)) 800 /\
    doc_timestamp doc = time_time idx.
Proof.
  rewrite process_files_trace. cbn [snd session].
  rewrite add_all_documents, elem_of_app.
  intros [Hold|Hnew]; [now left|right].
  apply processed_docs_elem in Hnew.
  apply list_elem_of_lookup in Hnew as [idx Hidx].
  unfold outcomes_of in Hidx. rewrite outcomes_from_lookup in Hidx.
  destruct (files !! idx) as [file|] eqn:Hfile; [|discriminate].
  cbn in Hidx. injection Hidx as Hout.
  exists idx, file. split; [exact Hfile|].
  unfold outcome_of in Hout. unfold process_file. cbv zeta.
  destruct (validate_file file (MAX_FILE_SIZE_MB cfg)) as [is_valid error_msg].
  destruct is_valid; cbn [negb] in Hout; [|discriminate].
  destruct (dict_get processors (file_extension_of (f_name file)))
    as [processor|] eqn:Hget; [|discriminate].
  destruct (processor file) as [[text_content metadata]|e] eqn:Hrun; [|discriminate].
  injection Hout as <-. cbn [doc_content doc_metadata doc_filename doc_size doc_type
                              doc_chunks doc_timestamp fst].
  apply dict_get_elem in Hget.
  destruct (processors_metadata _ _ _ _ _ Hget Hrun) as ((format & Hf & Hlookup) & _).
  split; [reflexivity|]. split.
  { unfold bind, emit, call, ret. reflexivity. }
  split; [reflexivity|]. split; [reflexivity|]. split.
  { exists format. split; [assumption|].
    now rewrite add_common_metadata_format, Hlookup. }
  split; [|reflexivity].
  unfold chunk_count, default_chunk_size, default_overlap.
  change (1000 - 200) with 800.
  pose proof (len_nonneg text_content).
  destruct (Z.eq_dec (len text_content) 0) as [E|E]; [rewrite E; reflexivity|].
  pose proof (ceil_div_pos (len text_content) 800 ltac:(lia) ltac:(lia)). lia.
Qed.

End BatchTrace.

Section BatchWitnesses.
Import Config SessionManager DocumentProcessor Home Batch.

Lemma process_files_documents_witness :
  let w' := snd (process_files (libs := Demo.demo_libraries) Demo.demo_config Z.of_nat
                   Demo.demo_files Demo.empty_world) in
  exists doc,
    uploaded_documents (session w') !! 1%nat = Some doc /\
    (doc ∈ uploaded_documents (session Demo.empty_world) \/
     exists idx file,
       Demo.demo_files !! idx = Some file /\
       fst (validate_file file (MAX_FILE_SIZE_MB Demo.demo_config)) = true /\
       fst (process_file (libs := Demo.demo_libraries) file Demo.empty_world)
       = Ok (doc_content doc, doc_metadata doc) /\
       doc_filename doc = f_name file /\
       doc_size doc = f_size file /\
       (exists format,
          (file_extension_of (f_name file), format) ∈ format_names /\
          doc_type doc = PyStr format) /\
       doc_chunks doc = ceil_div (len (doc_content doc)) 800 /\
       doc_timestamp doc = Z.of_nat idx).
Proof.
  intros w'. eexists. split; [vm_compute; reflexivity|].
  apply (process_files_documents (libs := Demo.demo_libraries) Demo.demo_config Z.of_nat
           Demo.demo_files Demo.empty_world).
  apply list_elem_of_lookup. exists 1%nat. vm_compute. reflexivity.
Defined.

End BatchWitnesses.

(** ** The home page over successive runs *)

Section PageInvariants.
Import Config SessionManager DocumentProcessor Home Traces.
Context {libs : FormatLibraries}.
Variable cfg : config.
Variable time_time : nat -> Z.

Lemma for_each_preserves {A S} (P : world -> Prop) (body : S -> A -> M S) :
  (forall acc x, preserves P (body acc x)) ->
  forall l acc, preserves P (for_each body l acc).
Proof.
  intros Hbody. induction l as [|x l IH]; intros acc w Hw; [exact Hw|].
  cbn [for_each]. unfold bind.
  pose proof (Hbody acc x w Hw) as Hx.
  destruct (body acc x w) as [[acc'|sig|] w1]; cbn [snd] in *; [|assumption|assumption].
  now apply IH.
Qed.

(** A property of the session that the four updates of the home page
    keep is kept by the page. *)
Section Kept.
Variable Q : session_state -> Prop.
Hypothesis Q_add : forall doc s, Q s -> Q (add_uploaded_document doc s).
Hypothesis Q_delete : forall idx s,
  Q s ->
  Q (set_doc_count (Z.of_nat (length (delete idx (uploaded_documents s))))
                   (set_documents (delete idx (uploaded_documents s)) s)).
Hypothesis Q_clear : forall s, Q s -> Q (set_doc_count 0 (set_documents [] s)).
Hypothesis Q_preview : forall idx b s, Q s -> Q (set_show_preview idx b s).

Lemma add_all_keeps docs : forall s, Q s -> Q (add_all docs s).
Proof.
  unfold add_all. induction docs as [|doc docs IH]; intros s Hs; [exact Hs|].
  cbn [fold_left]. apply IH. now apply Q_add.
Qed.

Lemma display_one_keeps clicked acc item :
  preserves (fun w => Q (session w)) (display_one clicked acc item).
Proof.
  intros w Hw. destruct item as [idx doc]. unfold display_one.
  unfold bind, get_session, call, pop, modify_session, rerun, ret.
  cbn [session page].
  destruct (st_button clicked (BtnDelete idx)).
  - destruct (uploaded_documents (session w) !! idx); cbn [snd session];
      [now apply Q_delete | assumption].
  - destruct (st_button clicked (BtnPreview idx)); cbn [session page].
    + destruct (default false (show_preview (set_show_preview idx true (session w)) !! idx));
        [destruct (st_button clicked (BtnClosePreview idx))|];
        cbn [snd session]; auto.
    + destruct (default false (show_preview (session w) !! idx));
        [destruct (st_button clicked (BtnClosePreview idx))|];
        cbn [snd session]; auto.
Qed.

Lemma display_keeps clicked :
  preserves (fun w => Q (session w)) (display_uploaded_documents clicked).
Proof.
  intros w Hw. unfold display_uploaded_documents.
  unfold bind at 1, get_session at 1. unfold bind at 1.
  pose proof (for_each_preserves (fun w => Q (session w)) (display_one clicked)
                (display_one_keeps clicked)
                (enumerate 0 (uploaded_documents (session w))) tt w Hw) as Hloop.
  destruct (for_each _ _ _ w) as [[[]|sig|] w1]; cbn [snd] in *; try assumption.
  destruct (st_button clicked BtnClearAll); [|assumption].
  unfold bind, get_session, modify_session, rerun, ret. cbn [session page].
  destruct (bool_decide (uploaded_documents (session w1) = [])); cbn [negb snd session];
    auto.
Qed.

Lemma render_keeps files clicked :
  preserves (fun w => Q (session w)) (render cfg time_time files clicked).
Proof.
  intros w Hw. unfold render.
  destruct (validate cfg) as [is_valid message]. destruct is_valid; cbn [negb].
  - unfold bind at 1.
    assert (Q (session (snd ((if negb (bool_decide (files = []))
                              then process_uploaded_files cfg time_time clicked files
                              else ret tt) w)))) as Hup.
    { destruct (negb (bool_decide (files = []))); [|exact Hw].
      unfold process_uploaded_files.
      destruct (st_button clicked BtnProcessAll); [|exact Hw].
      rewrite process_files_trace. cbn [snd session]. now apply add_all_keeps. }
    destruct ((if negb (bool_decide (files = []))
               then process_uploaded_files cfg time_time clicked files
               else ret tt) w) as [[[]|sig|] w1]; cbn [snd] in *; try assumption.
    unfold bind, get_session.
    destruct (negb (bool_decide (uploaded_documents (session w1) = []))).
    + now apply display_keeps.
    + exact Hup.
  - exact Hw.
Qed.

Lemma render_all_keeps runs : forall w,
  Q (session w) -> Q (session (render_all cfg time_time runs w)).
Proof.
  unfold render_all. induction runs as [|run runs IH]; intros w Hw; [exact Hw|].
  cbn [fold_left]. apply IH. now apply render_keeps.
Qed.
End Kept.

(** X17: whatever files are uploaded and whatever buttons are clicked,
    run after run, starting from a fresh session, [doc_count] is the
    number of uploaded documents. *)
Theorem doc_count_invariant runs :
  let s := session (render_all cfg time_time runs (World fresh_session [])) in
  doc_count s = Z.of_nat (length (uploaded_documents s)).
Proof.
  apply (render_all_keeps
           (fun s => doc_count s = Z.of_nat (length (uploaded_documents s))));
    intros; first [reflexivity | assumption].
Qed.

(** X18: the home page changes only the document list, its counter and
    the preview flags: the chat history, the current conversation, the
    query counter and history, the analytics data, the cached clients
    and the display settings are the same after any sequence of runs. *)
Theorem home_page_frame runs w :
  let s := session w in
  let s' := session (render_all cfg time_time runs w) in
  chat_history s' = chat_history s /\
  current_conversation s' = current_conversation s /\
  query_count s' = query_count s /\
  query_history s' = query_history s /\
  analytics_data s' = analytics_data s /\
  config_validated s' = config_validated s /\
  kendra_client s' = kendra_client s /\
  bedrock_client s' = bedrock_client s /\
  show_sources s' = show_sources s /\
  streaming_enabled s' = streaming_enabled s.
Proof.
  apply (render_all_keeps
           (fun s' =>
              chat_history s' = chat_history (session w) /\
              current_conversation s' = current_conversation (session w) /\
              query_count s' = query_count (session w) /\
              query_history s' = query_history (session w) /\
              analytics_data s' = analytics_data (session w) /\
              config_validated s' = config_validated (session w) /\
              kendra_client s' = kendra_client (session w) /\
              bedrock_client s' = bedrock_client (session w) /\
              show_sources s' = show_sources (session w) /\
              streaming_enabled s' = streaming_enabled (session w)));
    try (intros; assumption); repeat split.
Qed.

(** Items from [start] on whose buttons were not clicked change nothing. *)
Lemma display_loop_idle_from clicked docs : forall start w,
  (forall idx, (start <= idx)%nat ->
               st_button clicked (BtnDelete idx) = false /\
               st_button clicked (BtnPreview idx) = false /\
               st_button clicked (BtnClosePreview idx) = false) ->
  for_each (display_one clicked) (enumerate start docs) tt w = (Ok tt, w).
Proof.
  induction docs as [|doc docs IH]; intros start w Hidle; [reflexivity|].
  cbn [for_each enumerate]. unfold bind at 1.
  destruct (Hidle start ltac:(lia)) as (Hd & Hp & Hc).
  rewrite display_one_idle by assumption.
  apply IH. intros idx Hidx. apply Hidle. lia.
Qed.

Lemma display_loop_preview idx docs : forall start w,
  (start <= idx < start + length docs)%nat ->
  for_each (display_one (Some (BtnPreview idx))) (enumerate start docs) tt w
  = (Ok tt, World (set_show_preview idx true (session w)) (page w)).
Proof.
  induction docs as [|doc docs IH]; intros start w Hrange;
    cbn [for_each enumerate length] in *; [lia|].
  unfold bind at 1.
  destruct (decide (start = idx)) as [->|Hne].
  - unfold display_one.
    rewrite (st_button_other (BtnPreview idx) (BtnDelete idx)) by discriminate.
    rewrite st_button_same.
    rewrite (st_button_other (BtnPreview idx) (BtnClosePreview idx)) by discriminate.
    unfold bind, get_session, modify_session, ret. cbn [session page show_preview set_show_preview].
    rewrite lookup_insert_eq. cbn [default from_option id].
    apply display_loop_idle_from.
    intros j Hj. repeat split; apply st_button_other; try discriminate.
    intros [= ->]. lia.
  - rewrite display_one_idle by (apply st_button_other; congruence).
    apply IH. lia.
Qed.

Lemma display_loop_close idx docs : forall start w,
  (start <= idx < start + length docs)%nat ->
  show_preview (session w) !! idx = Some true ->
  for_each (display_one (Some (BtnClosePreview idx))) (enumerate start docs) tt w
  = (Raise RerunException, World (set_show_preview idx false (session w)) (page w)).
Proof.
  induction docs as [|doc docs IH]; intros start w Hrange Hshown;
    cbn [for_each enumerate length] in *; [lia|].
  unfold bind at 1.
  destruct (decide (start = idx)) as [->|Hne].
  - unfold display_one.
    rewrite (st_button_other (BtnClosePreview idx) (BtnDelete idx)) by discriminate.
    rewrite (st_button_other (BtnClosePreview idx) (BtnPreview idx)) by discriminate.
    rewrite st_button_same.
    unfold bind, get_session, modify_session, rerun, ret. cbn [session page].
    rewrite Hshown. reflexivity.
  - rewrite display_one_idle by (apply st_button_other; congruence).
    apply IH; [lia | assumption].
Qed.

(** X19: the Preview button of a listed document sets its preview flag
    and nothing else, without a rerun; the Close Preview button then
    clears the flag and reruns; the documents and their counter are the
    same throughout. *)
Theorem preview_then_close idx w :
  (idx < length (uploaded_documents (session w)))%nat ->
  let opened := World (set_show_preview idx true (session w)) (page w) in
  let closed := World (set_show_preview idx false (session opened)) (page w) in
  display_uploaded_documents (Some (BtnPreview idx)) w = (Ok tt, opened) /\
  display_uploaded_documents (Some (BtnClosePreview idx)) opened
  = (Raise RerunException, closed) /\
  show_preview (session opened) !! idx = Some true /\
  show_preview (session closed) !! idx = Some false /\
  uploaded_documents (session closed) = uploaded_documents (session w) /\
  doc_count (session closed) = doc_count (session w).
Proof.
  intros Hidx opened closed. split; [|split; [|split; [|split; [|split]]]].
  - unfold display_uploaded_documents, bind at 1, get_session. unfold bind at 1.
    rewrite display_loop_preview by lia.
    rewrite (st_button_other (BtnPreview idx) BtnClearAll) by discriminate.
    reflexivity.
  - unfold display_uploaded_documents, bind at 1, get_session. unfold bind at 1.
    rewrite display_loop_close; [reflexivity | cbn; lia |].
    cbn. apply lookup_insert_eq.
  - cbn. apply lookup_insert_eq.
  - cbn. apply lookup_insert_eq.
  - reflexivity.
  - reflexivity.
Qed.

(** X20: the Delete button of position [idx] moves every later document
    one position up and leaves the preview flags where they are, so a
    flag set for a later position stays with the position, not with the
    document. *)
Theorem delete_keeps_preview_flags idx w :
  (idx < length (uploaded_documents (session w)))%nat ->
  exists w',
    display_uploaded_documents (Some (BtnDelete idx)) w = (Raise RerunException, w') /\
    show_preview (session w') = show_preview (session w) /\
    (forall j, (j < idx)%nat ->
               uploaded_documents (session w') !! j = uploaded_documents (session w) !! j) /\
    (forall j, (idx <= j)%nat ->
               uploaded_documents (session w') !! j
               = uploaded_documents (session w) !! S j) /\
    S (length (uploaded_documents (session w'))) = length (uploaded_documents (session w)).
Proof.
  intros Hidx.
  destruct (lookup_lt_is_Some_2 _ _ Hidx) as [removed Hlookup].
  eexists. split; [|split; [|split; [|split]]].
  - unfold display_uploaded_documents, bind at 1, get_session. unfold bind at 1.
    rewrite (display_loop_delete idx removed) by (assumption || lia). reflexivity.
  - reflexivity.
  - intros j Hj. cbn. now apply list_lookup_delete_lt.
  - intros j Hj. cbn. now apply list_lookup_delete_ge.
  - cbn. rewrite length_delete by eauto. lia.
Qed.

(** X21: when one of the three required settings is empty, [render]
    shows the configuration error and stops: no file is processed and
    the session is not touched, whatever was uploaded or clicked. *)
Theorem render_stops_on_missing_configuration files clicked w :
  AWS_ACCESS_KEY_ID cfg = "" \/ AWS_SECRET_ACCESS_KEY cfg = "" \/ KENDRA_INDEX_ID cfg = "" ->
  render cfg time_time files clicked w
  = (Ok tt,
     World (session w)
           (page w ++ [StError (warning_sign +:+ " Configuration Error: "
                                +:+ snd (validate cfg));
                       StInfo "Please configure AWS credentials in the Settings page"])).
Proof.
  intros Hmissing.
  assert (fst (validate cfg) = false) as Hinvalid.
  { destruct (validate cfg) as [[] message] eqn:Hv; [|reflexivity].
    unfold validate in Hv. cbn [List.filter map fst snd] in Hv.
    destruct (String.eqb_spec (AWS_ACCESS_KEY_ID cfg) "");
      destruct (String.eqb_spec (AWS_SECRET_ACCESS_KEY cfg) "");
      destruct (String.eqb_spec (KENDRA_INDEX_ID cfg) "");
      cbn in Hv; try discriminate Hv; tauto. }
  unfold render. destruct (validate cfg) as [is_valid message].
  cbn [fst] in Hinvalid. subst is_valid. cbn [negb snd].
  unfold bind, emit, ret. cbn [session page]. now rewrite <- app_assoc.
Qed.

End PageInvariants.

Section PageWitnesses.
Import Config SessionManager DocumentProcessor Home Traces.

Lemma preview_then_close_witness :
  let w := World (add_uploaded_document (Demo.demo_doc "b.txt")
                    (add_uploaded_document (Demo.demo_doc "a.txt") fresh_session)) [] in
  let opened := World (set_show_preview 1 true (session w)) (page w) in
  let closed := World (set_show_preview 1 false (session opened)) (page w) in
  display_uploaded_documents (Some (BtnPreview 1)) w = (Ok tt, opened) /\
  display_uploaded_documents (Some (BtnClosePreview 1)) opened
  = (Raise RerunException, closed) /\
  show_preview (session opened) !! 1%nat = Some true /\
  show_preview (session closed) !! 1%nat = Some false /\
  uploaded_documents (session closed) = uploaded_documents (session w) /\
  doc_count (session closed) = doc_count (session w).
Proof.
  intros w. apply (preview_then_close 1 w). simpl. lia.
Defined.

Lemma delete_keeps_preview_flags_witness :
  let w := World (set_show_preview 1 true
                    (add_uploaded_document (Demo.demo_doc "b.txt")
                       (add_uploaded_document (Demo.demo_doc "a.txt") fresh_session))) [] in
  exists w',
    display_uploaded_documents (Some (BtnDelete 0)) w = (Raise RerunException, w') /\
    show_preview (session w') = show_preview (session w) /\
    (forall j, (j < 0)%nat ->
               uploaded_documents (session w') !! j = uploaded_documents (session w) !! j) /\
    (forall j, (0 <= j)%nat ->
               uploaded_documents (session w') !! j
               = uploaded_documents (session w) !! S j) /\
    S (length (uploaded_documents (session w'))) = length (uploaded_documents (session w)).
Proof.
  intros w. apply (delete_keeps_preview_flags 0 w). simpl. lia.
Defined.

Lemma render_stops_on_missing_configuration_witness :
  let cfg := Cfg "AKIAEXAMPLE" "secret" "us-east-1" "" 10 in
  render (libs := Demo.demo_libraries) cfg Z.of_nat Demo.demo_files (Some BtnProcessAll)
         Demo.empty_world
  = (Ok tt,
     World (session Demo.empty_world)
           (page Demo.empty_world
            ++ [StError (warning_sign +:+ " Configuration Error: " +:+ snd (validate cfg));
                StInfo "Please configure AWS credentials in the Settings page"])).
Proof.
  intros cfg.
  apply (render_stops_on_missing_configuration (libs := Demo.demo_libraries) cfg Z.of_nat
           Demo.demo_files (Some BtnProcessAll) Demo.empty_world).
  right. right. reflexivity.
Defined.

End PageWitnesses.

(** ** The gateway: failures, calls, connection *)

Section GatewayFacts.
Import Config KendraService KendraFormat.

(** X22: when the backend call of [query], [batch_put_document],
    [delete_document] or [describe_index] raises, the operation raises an
    [Exception] whose message is the name of the failed operation
    followed by the message of the backend. *)
Theorem backend_failures_are_wrapped self c w :
  client self = Some c ->
  (forall query_text max_results e,
     client_query c (index_id self) query_text (default KENDRA_MAX_RESULTS max_results)
     = Failure e ->
     fst (query self query_text max_results w)
     = Raise (Exc (Exception ("Kendra query failed: " +:+ str_exc e)))) /\
  (forall documents e,
     client_batch_put_document c (index_id self) documents = Failure e ->
     fst (batch_put_document self documents w)
     = Raise (Exc (Exception ("Batch document upload failed: " +:+ str_exc e)))) /\
  (forall document_id e,
     client_batch_delete_document c (index_id self) [document_id] = Failure e ->
     fst (delete_document self document_id w)
     = Raise (Exc (Exception ("Document deletion failed: " +:+ str_exc e)))) /\
  (forall e,
     client_describe_index c (index_id self) = Failure e ->
     fst (describe_index self w)
     = Raise (Exc (Exception ("Failed to describe index: " +:+ str_exc e)))).
Proof.
  intros Hc. unfold query, batch_put_document, delete_document, describe_index.
  rewrite Hc. unfold try_except, bind, emit, call, raise, ret. cbn [session page].
  repeat split; intros; match goal with H : _ = Failure _ |- _ => rewrite H end;
    reflexivity.
Qed.

Lemma backend_failures_are_wrapped_witness :
  (forall query_text max_results e,
     client_query Demo.demo_client (index_id Demo.demo_service) query_text
                  (default KENDRA_MAX_RESULTS max_results)
     = Failure e ->
     fst (query Demo.demo_service query_text max_results Demo.empty_world)
     = Raise (Exc (Exception ("Kendra query failed: " +:+ str_exc e)))) /\
  fst (describe_index Demo.demo_service Demo.empty_world)
  = Raise (Exc (Exception "Failed to describe index: throttled")).
Proof.
  pose proof (backend_failures_are_wrapped Demo.demo_service Demo.demo_client
                Demo.empty_world eq_refl) as (Hq & _ & _ & Hd).
  split; [exact Hq|].
  apply (Hd (LibraryError "ClientError" "throttled")). reflexivity.
Defined.

(** X23: no operation of the gateway touches the session, and each
    makes at most one backend call: exactly one when a client is
    connected, whatever the backend answers, and none otherwise; only
    [get_query_suggestions] shows a message, when the call fails. *)
Theorem gateway_calls_backend_once self w :
  let called (c : backend_call) :=
    match client self with
    | Some _ => [Backend c]
    | None => []
    end in
  (forall query_text max_results,
     snd (query self query_text max_results w)
     = World (session w)
             (page w ++ called (CallQuery (index_id self) query_text
                                          (default KENDRA_MAX_RESULTS max_results)))) /\
  (forall documents,
     snd (batch_put_document self documents w)
     = World (session w)
             (page w ++ called (CallBatchPutDocument (index_id self) (length documents)))) /\
  (forall document_id,
     snd (delete_document self document_id w)
     = World (session w)
             (page w ++ called (CallBatchDeleteDocument (index_id self) [document_id]))) /\
  snd (describe_index self w)
  = World (session w) (page w ++ called (CallDescribeIndex (index_id self))) /\
  (forall query_text max_suggestions,
     snd (get_query_suggestions self query_text max_suggestions w)
     = World (session w)
             (page w
              ++ called (CallGetQuerySuggestions (index_id self) query_text max_suggestions)
              ++ match client self with
                 | Some c =>
                     match client_get_query_suggestions c (index_id self) query_text
                                                        max_suggestions with
                     | Failure e => [StWarning ("Failed to get suggestions: " +:+ str_exc e)]
                     | Success _ => []
                     end
                 | None => []
                 end)).
Proof.
  intros called. subst called.
  unfold query, batch_put_document, delete_document, describe_index,
    get_query_suggestions.
  destruct (client self) as [c|].
  - unfold try_except, bind, emit, call, raise, ret. cbn [session page].
    repeat split; intros;
      match goal with
      | |- context [match ?r with Success _ => _ | Failure _ => _ end] => destruct r
      end; cbn [snd session page]; rewrite <- ?app_assoc, ?app_nil_r; reflexivity.
  - unfold raise, ret. cbn [snd]. rewrite !app_nil_r.
    repeat split; intros; now destruct w.
Qed.

(** X24: when the backend answers, [get_query_suggestions] returns one
    text per suggestion, in the order of the backend: the text found
    under [Value], [Text], [Text] of the suggestion, and the empty string
    when any of the three keys is missing. *)
Theorem suggestions_keep_backend_order self c query_text max_suggestions response w :
  client self = Some c ->
  client_get_query_suggestions c (index_id self) query_text max_suggestions
  = Success response ->
  exists suggestions,
    fst (get_query_suggestions self query_text max_suggestions w) = Ok suggestions /\
    length suggestions = length (default [] (Suggestions response)) /\
    (forall i, suggestions !! i = suggestion_text <$> default [] (Suggestions response) !! i) /\
    suggestion_text (Suggestion None) = "" /\
    (forall i item,
       default [] (Suggestions response) !! i = Some item ->
       suggestions !! i = Some (default "" ((Value item ≫= ValueText) ≫= Text))) /\
    suggestions
    = map (fun item => default "" ((Value item ≫= ValueText) ≫= Text))
          (default [] (Suggestions response)).
Proof.
  intros Hc Hresp. eexists. split; [|split; [|split; [|split; [|split]]]].
  - unfold get_query_suggestions. rewrite Hc.
    unfold try_except, bind, emit, call, ret. cbn [session page]. rewrite Hresp.
    reflexivity.
  - apply length_map.
  - intros i. apply list_lookup_fmap.
  - reflexivity.
  - intros i item Hitem. rewrite list_lookup_fmap, Hitem.
    cbn [fmap option_fmap option_map]. f_equal.
    destruct item as [[[[[text]|]]|]]; reflexivity.
  - apply map_ext. intros [[[[[text]|]]|]]; reflexivity.
Qed.

Lemma suggestions_keep_backend_order_witness :
  let c := KendraClient (client_query Demo.demo_client)
             (client_batch_put_document Demo.demo_client)
             (client_batch_delete_document Demo.demo_client)
             (fun _ _ _ =>
                Success (SuggestionsResponse
                           (Some [Suggestion (Some (SuggestionValue (Some (TextField (Some "kendra")))));
                                  Suggestion None])))
             (client_describe_index Demo.demo_client) in
  exists suggestions,
    fst (get_query_suggestions (Service (Some c) "index-1") "ken" 5 Demo.empty_world)
    = Ok suggestions /\
    length suggestions = 2%nat /\
    (forall i, suggestions !! i
               = suggestion_text
                   <$> [Suggestion (Some (SuggestionValue (Some (TextField (Some "kendra")))));
                        Suggestion None] !! i) /\
    suggestion_text (Suggestion None) = "" /\
    (forall i item,
       [Suggestion (Some (SuggestionValue (Some (TextField (Some "kendra")))));
        Suggestion None] !! i = Some item ->
       suggestions !! i = Some (default "" ((Value item ≫= ValueText) ≫= Text))) /\
    suggestions = ["kendra"; ""].
Proof.
  intros c.
  apply (suggestions_keep_backend_order (Service (Some c) "index-1") c "ken" 5
           (SuggestionsResponse
              (Some [Suggestion (Some (SuggestionValue (Some (TextField (Some "kendra")))));
                     Suggestion None]))
           Demo.empty_world);
    reflexivity.
Defined.

(** X25: [initialize_client] never changes the index id; without
    credentials it connects with those of [Config.get_aws_credentials];
    when [boto3.client] raises it reports the message and keeps the
    client the service had, and when it returns the service holds the
    new client. *)
Theorem initialize_client_outcomes boto3_client cfg self aws_credentials :
  let after := initialize_client boto3_client cfg self aws_credentials in
  let creds := default (get_aws_credentials cfg) aws_credentials in
  index_id (fst after) = index_id self /\
  initialize_client boto3_client cfg self None
  = initialize_client boto3_client cfg self (Some (get_aws_credentials cfg)) /\
  match boto3_client creds with
  | Success c =>
      client (fst after) = Some c /\
      snd after = (true, "Kendra client initialized successfully")
  | Failure e =>
      fst after = self /\
      snd after = (false, "Failed to initialize Kendra client: " +:+ str_exc e)
  end.
Proof.
  unfold initialize_client, get_aws_credentials.
  destruct aws_credentials as [given|]; cbn [default from_option id];
    (split; [|split; [reflexivity|]]);
    destruct (boto3_client _); cbn [fst snd client index_id]; auto.
Qed.

(** X26: [format_document_for_kendra] passes the id and the title on,
    marks the content as plain text, lists the attributes by their keys
    in the order of the dictionary, and leaves [Attributes] out, rather
    than empty, when there is no attribute. *)
Theorem format_document_attributes {V} (str : V -> string) encode_utf8
    doc_id title content attributes :
  let document := format_document_for_kendra str encode_utf8 doc_id title content attributes in
  kd_Id document = doc_id /\
  kd_Title document = title /\
  kd_Blob document = encode_utf8 content /\
  kd_ContentType document = "PLAIN_TEXT" /\
  kd_Attributes document <> Some [] /\
  (kd_Attributes document = None <-> default [] attributes = []) /\
  default [] (kd_Attributes document)
  = map (fun item : string * V => (fst item, str (snd item))) (default [] attributes).
Proof.
  unfold format_document_for_kendra.
  destruct attributes as [[|item items]|]; cbn; repeat split; congruence.
Qed.

End GatewayFacts.

(** ** The session over sequences of calls *)

Section SessionTraces.
Import SessionManager Traces BedrockService.

Lemma perform_all_snoc actions a s :
  perform_all (actions ++ [a]) s = perform a (perform_all actions s).
Proof. unfold perform_all. now rewrite fold_left_app. Qed.


(** X28: after any sequence of calls on a fresh session, the analytics
    lists [queries], [confidence_scores] and [response_times] have the
    same length, one entry per [record_analytics], and there are at most
    as many feedback entries. *)
Theorem analytics_lists_are_parallel actions :
  let a := analytics_data (perform_all actions fresh_session) in
  length (confidence_scores a) = length (queries a) /\
  length (response_times a) = length (queries a) /\
  (length (user_feedback a) <= length (queries a))%nat.
Proof.
  induction actions as [|act actions IH] using rev_ind; [cbn; lia|].
  rewrite perform_all_snoc. cbv zeta in *.
  destruct act; cbn; try exact IH.
  destruct (truthy feedback); rewrite ?length_app; cbn; lia.
Qed.

(** X29: no call of the session manager removes or rewrites what was
    recorded: the chat history, the uploaded documents and the analytics
    lists only grow at the end, and the query counter never decreases. *)
Theorem session_logs_are_append_only a s :
  chat_history s `prefix_of` chat_history (perform a s) /\
  uploaded_documents s `prefix_of` uploaded_documents (perform a s) /\
  queries (analytics_data s) `prefix_of` queries (analytics_data (perform a s)) /\
  confidence_scores (analytics_data s)
  `prefix_of` confidence_scores (analytics_data (perform a s)) /\
  response_times (analytics_data s)
  `prefix_of` response_times (analytics_data (perform a s)) /\
  sources_used (analytics_data s) `prefix_of` sources_used (analytics_data (perform a s)) /\
  user_feedback (analytics_data s) `prefix_of` user_feedback (analytics_data (perform a s)) /\
  query_count s <= query_count (perform a s).
Proof.
  destruct a; cbn; repeat split; try reflexivity; try lia;
    try (apply prefix_app_r; reflexivity).
  destruct (truthy feedback); [apply prefix_app_r|]; reflexivity.
Qed.






End SessionTraces.
